(** * go-rollbar: the reporting pipeline of the rollbar client

    A shallow embedding of [client.go] (the per-level [httpClient]) and of
    the consolidated [Client] (single client, explicit level, UUID-aware
    payload), with the properties of their request/response pipeline.

    Go code that returns [(value, error)] is a function into [result]; code
    that talks to the logger, the HTTP transport or the random source runs
    in a state monad over [World], which records every call that leaves the
    library.  The collaborators that are not part of the repository
    (encoding/json, net/http, ctxhttp, the clock, the captured stack) are
    the fields of an environment record [Env]: every theorem holds for all
    of them. *)

From Stdlib Require Import String Ascii List ZArith Lia Bool.
From ExtLib Require Import Structures.Monad Structures.MonadState.
From ExtLib Require Import Data.Monads.StateMonad.
Import ListNotations.
Import MonadNotation.
Local Open Scope monad_scope.
Local Open Scope string_scope.
Local Open Scope Z_scope.

(** ** Errors

    Go's [error] values that the pipeline creates or passes on. *)

Inductive error : Type :=
| errors_New (msg : string)                 (* errors.New, errors.Errorf *)
| errors_Wrap (cause : error) (msg : string) (* errors.Wrap(cause, msg)   *)
| context_Canceled                          (* context.Canceled          *)
| context_DeadlineExceeded                  (* context.DeadlineExceeded  *)
| foreign_error (msg : string).             (* any other error value     *)

(** [err.Error()] *)
Fixpoint Error (e : error) : string :=
  match e with
  | errors_New msg => msg
  | errors_Wrap cause msg => msg ++ ": " ++ Error cause
  | context_Canceled => "context canceled"
  | context_DeadlineExceeded => "context deadline exceeded"
  | foreign_error msg => msg
  end.

(** [errors.Cause(err)] of github.com/pkg/errors. *)
Fixpoint Cause (e : error) : error :=
  match e with
  | errors_Wrap cause _ => Cause cause
  | _ => e
  end.

Inductive result (A : Type) : Type :=
| ok (a : A)
| failed (e : error).
Arguments ok {A} a.
Arguments failed {A} e.

(** [[]byte]: a byte sequence, written as a string. *)
Definition bytes := string.

(** ** Severity levels *)

Inductive Level : Type :=
| DebugLevel | InfoLevel | WarnLevel | ErrorLevel | CriticalLevel.

(** [string(level)] *)
Definition Level_string (l : Level) : string :=
  match l with
  | DebugLevel => "debug"
  | InfoLevel => "info"
  | WarnLevel => "warning"
  | ErrorLevel => "error"
  | CriticalLevel => "critical"
  end.

(** ** JSON values, as [interface{}] holds them after decoding *)

#[local] Unset Elimination Schemes.
Inductive JSON : Type :=
| JNull
| JBool (b : bool)
| JNumber (n : Z)
| JString (s : string)
| JArray (xs : list JSON)
| JObject (fields : list (string * JSON)).
#[local] Set Elimination Schemes.

(** [map[string]interface{}] *)
Definition JSONMap := list (string * JSON).

(** ** The wire types of package api/v1

    [Response] and [Result] as declared; the payload records have the
    fields that the composite literals of the two [payload] functions
    fill. *)

Module api.

Record Result := mkResult { UUID : string }.

Record Response := mkResponse {
  Err : Z;
  Result_ : Result;
  Message : string
}.

Record Server := mkServer { Host : string; Root : string; Branch : string }.

Record Notifier := mkNotifier { Name : string; Version : string }.

Record Data := mkData {
  Title : string;
  Body : JSON;
  Environment : string;
  Level : string;
  Timestamp : Z;
  Platform : string;
  CodeVersion : string;
  Language : string;
  Server_ : Server;
  Fingerprint : string;
  Notifier_ : Notifier;
  Custom : option JSONMap;
  DataUUID : string
}.

Record Payload := mkPayload { AccessToken : string; Data_ : Data }.

End api.

(** ** Stacks

    Modelled from the spec: the stack frame of the data model, "function
    name, file path, line number"; the file that declares it is not among
    the sources. *)

Record Frame := mkFrame {
  Filename : string;
  Method : string;
  Line : Z
}.

Definition Stack := list Frame.

(** ** Contexts, requests and responses *)

Inductive Context : Type :=
| context_Background
| context_value (id : nat)                 (* a context made by the caller *)
| context_WithCancel (parent : Context).   (* context.WithCancel(parent)   *)

Record Request := mkRequest {
  req_method : string;
  req_url : string;
  req_header : list (string * string);
  req_body : bytes
}.

(** [req.Header.Set(key, value)] *)
Definition Header_Set (key value : string) (req : Request) : Request :=
  mkRequest (req_method req) (req_url req)
    ((key, value)
       :: filter (fun kv => negb (String.eqb (fst kv) key)) (req_header req))
    (req_body req).

(** An [io.Reader] over a response body: the bytes it delivers before it
    ends, and how it ends: at end of file ([None]) or with the error of a
    failed [Read]. *)
Record Reader := mkReader { unread : bytes; read_error : option error }.

Record HTTPResponse := mkHTTPResponse {
  StatusCode : Z;
  Status : string;      (* e.g. "500 Internal Server Error" *)
  RespBody : Reader
}.

(** What [ctxhttp.Do(ctx, client, req)] gives back: a response, or an error
    together with what [ctx.Err()] says once the call has returned ([None]
    while the context is still live). *)
Inductive Exchange : Type :=
| Responded (resp : HTTPResponse)
| Failed (e : error) (ctx_Err : option error).

(** ** Loggers *)

Inductive Logger : Type :=
| nilLogger
| traceLogger
| customLogger (id : nat).

Inductive LogArg : Type :=
| arg_string (s : string)
| arg_bytes (b : bytes)
| arg_error (e : error).

(** ** Per-call options

    [ErrorOption] values come from the package's typed constructors, so
    the type assertion on [Value()] succeeds for the key it is read under. *)

Inductive ErrorOption : Type :=
| keyCustom (customs : JSONMap)
| keyUUID (id : string)
| keyOther (key : string).      (* an option under any other key *)

(** ** The world outside the library

    Every call that leaves the library is recorded, oldest first. *)

Inductive Event : Type :=
| ev_Debug (l : Logger) (ctx : Context) (format : string) (args : list LogArg)
| ev_Debugf (l : Logger) (ctx : Context) (format : string) (args : list LogArg)
| ev_send (ctx : Context) (req : Request)   (* the request goes to the transport *)
| ev_drain_body                             (* io.Copy(ioutil.Discard, resp.Body) *)
| ev_close_body                             (* resp.Body.Close() *)
| ev_cancel (ctx : Context).                (* cancel() of a WithCancel context *)

Record World := mkWorld {
  trace : list Event;
  uuids_drawn : nat       (* how many times uuid.New() has read the random source *)
}.

(** The collaborators of the pipeline.  [CreateStack], [errorBody] and the
    identity constants belong to files of the package that define no part
    of the pipeline; the rest is the Go library. *)
Record Env := mkEnv {
  language : string;
  Name : string;
  Version : string;
  UserAgent : string;
  CreateStack : Z -> Stack;
  errorBody : option error -> Stack -> JSON;
  time_Now_Unix : Z;
  rand_Read : nat -> list Z;                    (* the n-th 16 bytes of crypto/rand *)
  json_Marshal : api.Payload -> result bytes;
  json_MarshalIndent_Payload : api.Payload -> bytes;
  json_MarshalIndent_Response : api.Response -> bytes;
  json_MarshalIndent_map : JSONMap -> bytes;
  json_Unmarshal_Response : bytes -> result api.Response;
  json_Unmarshal_map : bytes -> result JSONMap;
  (* Decoder.Decode into a *api.Response that holds [old] *)
  json_Decode_Response : api.Response -> Reader -> api.Response * option error;
  (* Decoder.Decode into a *interface{} *)
  json_Decode_interface : Reader -> result JSON;
  http_NewRequest : string -> string -> bytes -> result Request;
  (* ctxhttp.Do(ctx, client, req), given the calls made so far *)
  ctxhttp_Do : list Event -> Context -> nat -> Request -> Exchange
}.

Definition M := state World.

Definition emit (e : Event) : M unit :=
  mkState (fun w => (tt, mkWorld (trace w ++ [e]) (uuids_drawn w))).

Definition run {A : Type} (m : M A) (w : World) : A * World := runState m w.

(** [http.MethodPost] and [http.StatusOK] *)
Definition http_MethodPost : string := "POST".
Definition http_StatusOK : Z := 200.

(** [io.Copy(buf, rdr)]: what it has written into the buffer, and the
    error it returns: nil when the reader ended at end of file, the error
    of the failed [Read] otherwise. *)
Definition io_Copy (rdr : Reader) : bytes * option error :=
  (unread rdr, read_error rdr).

(** [io.EOF] and [io.ErrUnexpectedEOF] *)
Definition io_EOF : error := foreign_error "EOF".
Definition io_ErrUnexpectedEOF : error := foreign_error "unexpected EOF".

(** The line feed that ends a format string. *)
Definition LF : string := String (ascii_of_nat 10) "".

(** A [bytes.Buffer] read as an [io.Reader]. *)
Definition bytes_Buffer (b : bytes) : Reader := mkReader b None.

(** ** github.com/google/uuid: [uuid.New().String()] *)

Definition UUID := list Z.

Definition hextable : string := "0123456789abcdef".

Definition hexdigit (n : Z) : ascii :=
  match String.get (Z.to_nat n) hextable with
  | Some c => c
  | None => "0"%char
  end.

(** [hex.Encode] *)
Fixpoint hex_Encode (src : list Z) : string :=
  match src with
  | [] => ""
  | v :: rest =>
      String (hexdigit (Z.shiftr v 4))
        (String (hexdigit (Z.land v 15)) (hex_Encode rest))
  end.

Definition slice {A : Type} (lo hi : nat) (l : list A) : list A :=
  firstn (hi - lo) (skipn lo l).

(** [UUID.String]: xxxxxxxx-xxxx-xxxx-xxxx-xxxxxxxxxxxx *)
Definition UUID_String (u : UUID) : string :=
  hex_Encode (slice 0 4 u) ++ "-" ++
  hex_Encode (slice 4 6 u) ++ "-" ++
  hex_Encode (slice 6 8 u) ++ "-" ++
  hex_Encode (slice 8 10 u) ++ "-" ++
  hex_Encode (slice 10 16 u).

Definition set_nth {A : Type} (i : nat) (f : A -> A) (l : list A) : list A :=
  firstn i l ++
  match skipn i l with
  | [] => []
  | x :: rest => f x :: rest
  end.

(** [uuid.NewRandom]: 16 random bytes, then the version 4 and variant bits. *)
Definition uuid_NewRandom (random : list Z) : UUID :=
  let u := map (fun i => nth i random 0 mod 256) (seq 0 16) in
  let u := set_nth 6 (fun b => Z.lor (Z.land b 15) 64) u in
  set_nth 8 (fun b => Z.lor (Z.land b 63) 128) u.

Section WithEnv.

Variable env : Env.

(** [uuid.New()] *)
Definition uuid_New : M UUID :=
  mkState (fun w =>
    (uuid_NewRandom (rand_Read env (uuids_drawn w)),
     mkWorld (trace w) (S (uuids_drawn w)))).

(** [ctxhttp.Do(ctx, c.client, req)] *)
Definition do_request (ctx : Context) (client : nat) (req : Request)
    : M Exchange :=
  mkState (fun w =>
    (ctxhttp_Do env (trace w) ctx client req,
     mkWorld (trace w ++ [ev_send ctx req]) (uuids_drawn w))).

End WithEnv.

(** ** The fingerprint of a stack *)

Definition frame_identity (f : Frame) : string * string * Z :=
  (Method f, Filename f, Line f).

(** Modelled from the spec: [Stack.Fingerprint], whose file is not among the
    sources.  The spec makes it a short stable hash that is a
    "deterministic function of frame identity (function name + file + line)
    for every frame in the stack"; which hash is used is left open, so it
    is the parameter [digest]. *)
Definition Fingerprint (digest : list (string * string * Z) -> string)
    (s : Stack) : string :=
  digest (map frame_identity s).

(** ** The process the client is constructed in *)

Record Process := mkProcess {
  os_Getenv : string -> string;             (* os.Getenv(key) *)
  os_Hostname : string * option error;      (* os.Hostname() *)
  runtime_GOOS : string;
  api_DefaultEndpoint : string;
  http_DefaultClient : nat
}.

(** [strconv.ParseBool]: it accepts 1, t, T, TRUE, true, True, 0, f, F,
    FALSE, false, False; any other value returns an error. *)
Definition strconv_ParseBool (str : string) : bool * option error :=
  if existsb (String.eqb str) ["1"; "t"; "T"; "true"; "TRUE"; "True"] then
    (true, None)
  else if existsb (String.eqb str) ["0"; "f"; "F"; "false"; "FALSE"; "False"]
  then (false, None)
  else
    (false,
     Some (foreign_error
             ("strconv.ParseBool: parsing " ++ String (ascii_of_nat 34) str
                ++ String (ascii_of_nat 34) ": invalid syntax"))).

(** * The consolidated client *)

Module Consolidated.

Record Client := mkClient {
  token : string;
  client : nat;            (* the *http.Client the transport uses *)
  endpoint : string;
  debug : bool;
  logger : Logger;
  environment : string;
  platform : string;
  codeVersion : string;
  serverHost : string;
  serverRoot : string
}.

(** One turn of the loop over the per-call options. *)
Definition apply_option (acc : option JSONMap * string) (o : ErrorOption)
    : option JSONMap * string :=
  match o with
  | keyCustom customs => (Some customs, snd acc)
  | keyUUID id => (fst acc, id)
  | keyOther _ => acc
  end.

(** What [data] of [parseResponse] holds: the bytes its caller passes, or
    the value the decoder has put there. *)
Inductive any : Type :=
| any_bytes (b : bytes)
| any_json (v : JSON).

(** The options of [New]; like the per-call options they come from the
    package's typed constructors.  [keyUnknown] is an option under a key
    that the switch of [New] has no case for. *)
Inductive Option : Type :=
| keyHTTPClient (cl : nat)
| keyEndpoint (url : string)
| keyDebug (b : bool)
| keyLogger (l : Logger)
| keyEnvironment (name : string)
| keyPlatform (name : string)
| keyCodeVersion (version : string)
| keyServerHost (host : string)
| keyServerRoot (root : string)
| keyUnknown (key : string).

(** One turn of the loop of [New] over its options.  The locals of [New]
    ([cl], [endpoint], [debug], [logger], [environment], [platform],
    [codeVersion], [serverHost], [serverRoot]) are held in the fields of
    the same name. *)
Definition apply_Option (st : Client) (o : Option) : Client :=
  match o with
  | keyHTTPClient cl =>
      mkClient (token st) cl (endpoint st) (debug st) (logger st)
        (environment st) (platform st) (codeVersion st) (serverHost st)
        (serverRoot st)
  | keyEndpoint url =>
      mkClient (token st) (client st) url (debug st) (logger st)
        (environment st) (platform st) (codeVersion st) (serverHost st)
        (serverRoot st)
  | keyDebug b =>
      mkClient (token st) (client st) (endpoint st) b (logger st)
        (environment st) (platform st) (codeVersion st) (serverHost st)
        (serverRoot st)
  | keyLogger l =>
      mkClient (token st) (client st) (endpoint st) (debug st) l
        (environment st) (platform st) (codeVersion st) (serverHost st)
        (serverRoot st)
  | keyEnvironment name =>
      mkClient (token st) (client st) (endpoint st) (debug st) (logger st)
        name (platform st) (codeVersion st) (serverHost st) (serverRoot st)
  | keyPlatform name =>
      mkClient (token st) (client st) (endpoint st) (debug st) (logger st)
        (environment st) name (codeVersion st) (serverHost st) (serverRoot st)
  | keyCodeVersion version =>
      mkClient (token st) (client st) (endpoint st) (debug st) (logger st)
        (environment st) (platform st) version (serverHost st) (serverRoot st)
  | keyServerHost host =>
      mkClient (token st) (client st) (endpoint st) (debug st) (logger st)
        (environment st) (platform st) (codeVersion st) host (serverRoot st)
  | keyServerRoot root =>
      mkClient (token st) (client st) (endpoint st) (debug st) (logger st)
        (environment st) (platform st) (codeVersion st) (serverHost st) root
  | keyUnknown _ => st
  end.

(** [New] creates a new REST rollbar API client. *)
Definition New (proc : Process) (tok : string) (options : list Option)
    : Client :=
  let st :=
    fold_left apply_Option options
      (mkClient tok (http_DefaultClient proc) (api_DefaultEndpoint proc)
         (fst (strconv_ParseBool (os_Getenv proc "ROLLBAR_DEBUG")))
         nilLogger "development" "" "" "" "") in
  let logger :=
    match logger st with
    | nilLogger => if debug st then traceLogger else nilLogger
    | l => l
    end in
  let platform :=
    if String.eqb (platform st) "" then runtime_GOOS proc else platform st in
  let serverHost :=
    if String.eqb (serverHost st) "" then fst (os_Hostname proc)
    else serverHost st in
  mkClient tok (client st) (endpoint st) (debug st) logger (environment st)
    platform (codeVersion st) serverHost (serverRoot st).

Section Pipeline.

Variable env : Env.

(** [c.logger.Debug(ctx, format, args...)] *)
Definition logger_Debug (c : Client) (ctx : Context) (format : string)
    (args : list LogArg) : M unit :=
  emit (ev_Debug (logger c) ctx format args).

(** [payload] creates the rollbar payload data. *)
Definition payload (c : Client) (level : Level) (err : option error)
    (options : list ErrorOption) : M api.Payload :=
  let title :=
    match err with
    | Some e => Error e
    | None => "<nil>"
    end in
  let '(customs, id) := fold_left apply_option options (None, "") in
  id <- (if String.eqb id ""
         then (u <- uuid_New env ;; ret (UUID_String u))
         else ret id) ;;
  let data :=
    api.mkData title
      (errorBody env err (CreateStack env 4))
      (environment c)
      (Level_string level)
      (time_Now_Unix env)
      (platform c)
      ""
      (language env)
      (api.mkServer (serverHost c) (serverRoot c) "")
      ""
      (api.mkNotifier (Name env) (Version env))
      customs
      id in
  ret (api.mkPayload (token c) data).

(** [json.NewDecoder(rdr).Decode(&data)]: [data] is an interface value
    that holds no pointer, so the decoder replaces it. *)
Definition Decode (rdr : Reader) (data : any) : any * option error :=
  match json_Decode_interface env rdr with
  | ok v => (any_json v, None)
  | failed e => (data, Some e)
  end.

(** [parseResponse] parses the rollbar API response. *)
Definition parseResponse (c : Client) (ctx : Context) (rdr : Reader)
    (data : any) : M (option error) :=
  rdr <- (if debug c then
            let '(buf, _) := io_Copy rdr in
            logger_Debug c ctx "-----> %s (response)"
              [arg_string (endpoint c)] ;;
            match json_Unmarshal_Response env buf with
            | failed err =>
                logger_Debug c ctx "failed to unmarshal payload: %s"
                  [arg_error err] ;;
                logger_Debug c ctx "%s" [arg_string buf]
            | ok m =>
                logger_Debug c ctx "%s"
                  [arg_bytes (json_MarshalIndent_Response env m)]
            end ;;
            logger_Debug c ctx "<----- %s (response)"
              [arg_string (endpoint c)] ;;
            ret (bytes_Buffer buf)
          else ret rdr) ;;
  let '(_, err) := Decode rdr data in
  ret err.

(** [post] posts payload to rollbar. *)
Definition post (c : Client) (pctx : Context) (level : Level)
    (err : option error) (options : list ErrorOption) : M (option error) :=
  if String.eqb (token c) "" then
    ret (Some (errors_New "empty token"))
  else
    p <- payload c level err options ;;
    match json_Marshal env p with
    | failed err => ret (Some (errors_Wrap err "failed to encode payload"))
    | ok data =>
        (if debug c
         then logger_Debug c pctx (json_MarshalIndent_Payload env p) []
         else ret tt) ;;
        match http_NewRequest env http_MethodPost (endpoint c) data with
        | failed _ =>
            ret (Some (errors_New "failed to create new POST request"))
        | ok req =>
            let ctx := context_WithCancel pctx in
            let req := Header_Set "Content-Type" "application/json" req in
            ex <- do_request env ctx (client c) req ;;
            match ex with
            | Failed err _ =>
                emit (ev_cancel ctx) ;;
                ret (Some (errors_Wrap err "failed to POST to rollbar"))
            | Responded resp =>
                r <- (if negb (StatusCode resp =? 200)
                      then ret (Some (errors_New
                             ("received response: " ++ Status resp)))
                      else parseResponse c pctx (RespBody resp)
                             (any_bytes data)) ;;
                emit ev_close_body ;;
                emit (ev_cancel ctx) ;;
                ret r
            end
        end
    end.

(** [Debug] sends the error to rollbar with debug level. *)
Definition Debug (c : Client) (ctx : Context) (err : option error)
    (options : list ErrorOption) : M unit :=
  r <- post c ctx DebugLevel err options ;;
  match r with
  | Some err => logger_Debug c ctx "rollbar: Debug: %+v" [arg_error err]
  | None => ret tt
  end.

(** [Info] sends the error to rollbar with info level. *)
Definition Info (c : Client) (ctx : Context) (err : option error)
    (options : list ErrorOption) : M unit :=
  r <- post c ctx InfoLevel err options ;;
  match r with
  | Some err => logger_Debug c ctx "rollbar: Info: %+v" [arg_error err]
  | None => ret tt
  end.

(** [Error] sends the error to rollbar with error level. *)
Definition Error (c : Client) (ctx : Context) (err : option error)
    (options : list ErrorOption) : M unit :=
  r <- post c ctx ErrorLevel err options ;;
  match r with
  | Some err => logger_Debug c ctx "rollbar: Error: %+v" [arg_error err]
  | None => ret tt
  end.

(** [Warn] sends the error to rollbar with warn level. *)
Definition Warn (c : Client) (ctx : Context) (err : option error)
    (options : list ErrorOption) : M unit :=
  r <- post c ctx WarnLevel err options ;;
  match r with
  | Some err => logger_Debug c ctx "rollbar: Warn: %+v" [arg_error err]
  | None => ret tt
  end.

(** [Critical] sends the error to rollbar with critical level. *)
Definition Critical (c : Client) (ctx : Context) (err : option error)
    (options : list ErrorOption) : M unit :=
  r <- post c ctx CriticalLevel err options ;;
  match r with
  | Some err => logger_Debug c ctx "rollbar: Critical: %+v" [arg_error err]
  | None => ret tt
  end.

End Pipeline.

End Consolidated.

(** * The per-level client of client.go *)

Module PerLevel.

Record httpClient := mkHttpClient {
  token : string;
  client : nat;            (* the *http.Client the transport uses *)
  endpoint : string;
  debug : bool;
  logger : Logger;
  environment : string;
  platform : string;
  codeVersion : string;
  serverHost : string;
  serverRoot : string;
  serverBranch : string;
  stackskip : Z
}.

(** An option of [New]: a function that is run on the client under
    construction. *)
Definition Option := httpClient -> httpClient.

Definition set_token (tok : string) (c : httpClient) : httpClient :=
  mkHttpClient tok (client c) (endpoint c) (debug c) (logger c)
    (environment c) (platform c) (codeVersion c) (serverHost c)
    (serverRoot c) (serverBranch c) (stackskip c).

Definition set_debug (b : bool) (c : httpClient) : httpClient :=
  mkHttpClient (token c) (client c) (endpoint c) b (logger c)
    (environment c) (platform c) (codeVersion c) (serverHost c)
    (serverRoot c) (serverBranch c) (stackskip c).

Definition set_logger (l : Logger) (c : httpClient) : httpClient :=
  mkHttpClient (token c) (client c) (endpoint c) (debug c) l
    (environment c) (platform c) (codeVersion c) (serverHost c)
    (serverRoot c) (serverBranch c) (stackskip c).

Definition set_serverHost (host : string) (c : httpClient) : httpClient :=
  mkHttpClient (token c) (client c) (endpoint c) (debug c) (logger c)
    (environment c) (platform c) (codeVersion c) host
    (serverRoot c) (serverBranch c) (stackskip c).

(** [defaultHTTPClient] *)
Definition defaultHTTPClient (proc : Process) : httpClient :=
  mkHttpClient "" (http_DefaultClient proc) (api_DefaultEndpoint proc) false
    nilLogger "development" (runtime_GOOS proc) "" "" "" "" 3.

(** The struct [client]: one [*httpClient] per level. *)
Record client_struct := mkclient {
  debugClient : httpClient;
  infoClient : httpClient;
  errorClient : httpClient;
  warnClient : httpClient;
  criticalClient : httpClient
}.

(** [New] creates a new REST rollbar API client.  The five fields of the
    result point to the one [cl]. *)
Definition New (proc : Process) (tok : string) (options : list Option)
    : client_struct :=
  let cl := defaultHTTPClient proc in
  let cl := set_token tok cl in
  let cl :=
    match strconv_ParseBool (os_Getenv proc "ROLLBAR_DEBUG") with
    | (d, None) => if d then set_debug d cl else cl
    | (_, Some _) => cl
    end in
  let cl := fold_left (fun cl o => o cl) options cl in
  let cl :=
    match logger cl with
    | nilLogger => if debug cl then set_logger traceLogger cl else cl
    | _ => cl
    end in
  let cl :=
    if String.eqb (serverHost cl) ""
    then set_serverHost (fst (os_Hostname proc)) cl
    else cl in
  mkclient cl cl cl cl cl.

Section Pipeline.

Variable digest : list (string * string * Z) -> string.
Variable env : Env.

(** [c.logger.Debugf(ctx, format, args...)] *)
Definition logger_Debugf (c : httpClient) (ctx : Context)
    (format : string) (args : list LogArg) : M unit :=
  emit (ev_Debugf (logger c) ctx format args).

(** [payload] creates the rollbar payload data. *)
Definition payload (c : httpClient) (level : Level) (err : option error)
    : api.Payload :=
  let title :=
    match err with
    | Some e => Error e
    | None => "<nil>"
    end in
  let stack := CreateStack env (stackskip c) in
  let data :=
    api.mkData title
      (errorBody env err stack)
      (environment c)
      (Level_string level)
      (time_Now_Unix env)
      (platform c)
      (codeVersion c)
      (language env)
      (api.mkServer (serverHost c) (serverRoot c) (serverBranch c))
      (Fingerprint digest stack)
      (api.mkNotifier (Name env) (Version env))
      None
      "" in
  api.mkPayload (token c) data.

(** [newRequest] creates new http.Request from payload. *)
Definition newRequest (c : httpClient) (p : api.Payload)
    : result Request :=
  if String.eqb (token c) "" then
    failed (errors_New "empty token")
  else
    match json_Marshal env p with
    | failed err => failed (errors_Wrap err "failed to encode payload")
    | ok data =>
        match http_NewRequest env http_MethodPost (endpoint c) data with
        | failed err =>
            failed (errors_Wrap err "failed to create new POST request")
        | ok req =>
            let req := Header_Set "Content-Type" "application/json" req in
            let req := Header_Set "User-Agent" (UserAgent env) req in
            ok req
        end
    end.

(** [parseResponse] parses the rollbar API response into [resp]. *)
Definition parseResponse (c : httpClient) (ctx : Context) (rdr : Reader)
    (resp : api.Response) : M (api.Response * option error) :=
  rdr <- (if debug c then
            let '(buf, _) := io_Copy rdr in
            logger_Debugf c ctx ("-----> %s (response)" ++ LF)
              [arg_string (endpoint c)] ;;
            match json_Unmarshal_map env buf with
            | failed err =>
                logger_Debugf c ctx "failed to unmarshal payload: %v"
                  [arg_error err]
            | ok m =>
                logger_Debugf c ctx ("%s" ++ LF)
                  [arg_bytes (json_MarshalIndent_map env m)]
            end ;;
            logger_Debugf c ctx ("<----- %s (response)" ++ LF)
              [arg_string (endpoint c)] ;;
            ret (bytes_Buffer buf)
          else ret rdr) ;;
  ret (json_Decode_Response env resp rdr).

(** [Do] posts payload to rollbar.  The rollbar response goes into
    [res]; the first component of the result is what [res] holds when
    [Do] returns.  The [select] takes the [ctx.Done()] case exactly when
    the context is done, that is when [ctx.Err()] is not nil. *)
Definition Do (c : httpClient) (ctx : Context) (req : Request)
    (res : api.Response) : M (api.Response * option error) :=
  ex <- do_request env ctx (client c) req ;;
  match ex with
  | Failed err ctx_Err =>
      match ctx_Err with
      | Some cerr => ret (res, Some cerr)
      | None => ret (res, Some (errors_Wrap err "failed to POST to rollbar"))
      end
  | Responded resp =>
      r <- (if negb (StatusCode resp =? http_StatusOK)
            then ret (res, Some (errors_New
                   ("received response: " ++ Status resp)))
            else parseResponse c ctx (RespBody resp) res) ;;
      emit ev_drain_body ;;
      emit ev_close_body ;;
      ret r
  end.

End Pipeline.

End PerLevel.

(** * Reading the options, and record updates used in statements *)

(** The occurrence identifier the caller supplied: the value of the last
    [keyUUID] option, if the options hold one. *)
Fixpoint supplied_id (options : list ErrorOption) : option string :=
  match options with
  | [] => None
  | o :: rest =>
      match supplied_id rest with
      | Some id => Some id
      | None =>
          match o with
          | keyUUID id => Some id
          | _ => None
          end
      end
  end.

Definition is_keyUUID (o : ErrorOption) : bool :=
  match o with
  | keyUUID _ => true
  | _ => false
  end.

(** The options leave no identifier to use: none was supplied, or the one
    supplied is the empty string. *)
Definition no_identifier (options : list ErrorOption) : Prop :=
  supplied_id options = None \/ supplied_id options = Some "".

(** The options with every occurrence identifier taken out. *)
Definition without_id (options : list ErrorOption) : list ErrorOption :=
  filter (fun o => negb (is_keyUUID o)) options.

(** A world after one more recorded call. *)
Definition logged (e : Event) (w : World) : World :=
  mkWorld (trace w ++ [e]) (uuids_drawn w).

Definition Consolidated_with_debug (b : bool) (c : Consolidated.Client)
    : Consolidated.Client :=
  Consolidated.mkClient (Consolidated.token c) (Consolidated.client c)
    (Consolidated.endpoint c) b (Consolidated.logger c)
    (Consolidated.environment c) (Consolidated.platform c)
    (Consolidated.codeVersion c) (Consolidated.serverHost c)
    (Consolidated.serverRoot c).

Definition PerLevel_with_debug (b : bool) (c : PerLevel.httpClient)
    : PerLevel.httpClient :=
  PerLevel.mkHttpClient (PerLevel.token c) (PerLevel.client c)
    (PerLevel.endpoint c) b (PerLevel.logger c)
    (PerLevel.environment c) (PerLevel.platform c)
    (PerLevel.codeVersion c) (PerLevel.serverHost c)
    (PerLevel.serverRoot c) (PerLevel.serverBranch c) (PerLevel.stackskip c).

(** The payload of the consolidated client, with the identifier that the
    options leave. *)
Definition payload_with (env : Env) (c : Consolidated.Client) (level : Level)
    (err : option error) (customs : option JSONMap) (id : string)
    : api.Payload :=
  api.mkPayload (Consolidated.token c)
    (api.mkData
       match err with Some e => Error e | None => "<nil>" end
       (errorBody env err (CreateStack env 4))
       (Consolidated.environment c) (Level_string level) (time_Now_Unix env)
       (Consolidated.platform c) "" (language env)
       (api.mkServer (Consolidated.serverHost c) (Consolidated.serverRoot c) "")
       ""
       (api.mkNotifier (Name env) (Version env))
       customs id).

(** The identifier [uuid.New().String()] gives in world [w]. *)
Definition fresh_id (env : Env) (w : World) : string :=
  UUID_String (uuid_NewRandom (rand_Read env (uuids_drawn w))).



(** The world in which the consolidated [post] sends its request: the
    payload has been built, and logged when [debug] is set. *)
Definition before_send (env : Env) (c : Consolidated.Client) (pctx : Context)
    (p : api.Payload) (w : World) : World :=
  if Consolidated.debug c
  then logged (ev_Debug (Consolidated.logger c) pctx
                 (json_MarshalIndent_Payload env p) []) w
  else w.

(** The world after a severity-leveled method, given how [post] came
    back: a failure adds one call to the client's logger. *)
Definition after_report (format : string) (c : Consolidated.Client)
    (ctx : Context) (r : option error * World) : World :=
  match fst r with
  | Some e => logged (ev_Debug (Consolidated.logger c) ctx format [arg_error e])
                (snd r)
  | None => snd r
  end.

(** ** What a call adds to the world *)

(** The calls recorded between world [w] and a later world [w']. *)
Definition added_since (w w' : World) : list Event :=
  skipn (length (trace w)) (trace w').

Definition is_send (e : Event) : bool :=
  match e with ev_send _ _ => true | _ => false end.

Definition is_cancel (e : Event) : bool :=
  match e with ev_cancel _ => true | _ => false end.

Definition is_close (e : Event) : bool :=
  match e with ev_close_body => true | _ => false end.

Definition is_drain (e : Event) : bool :=
  match e with ev_drain_body => true | _ => false end.

Definition is_log (e : Event) : bool :=
  match e with
  | ev_Debug _ _ _ _ => true
  | ev_Debugf _ _ _ _ => true
  | _ => false
  end.

Definition count (p : Event -> bool) (events : list Event) : nat :=
  length (filter p events).

(** The event is a call on logger [l] made with context [ctx]. *)
Definition logs_to (l : Logger) (ctx : Context) (e : Event) : Prop :=
  match e with
  | ev_Debug l' ctx' _ _ => l' = l /\ ctx' = ctx
  | ev_Debugf l' ctx' _ _ => l' = l /\ ctx' = ctx
  | _ => False
  end.

(** Every logger call among the events went to logger [l] with context
    [ctx]. *)
Definition logs_only_to (l : Logger) (ctx : Context) (events : list Event)
    : Prop :=
  Forall (fun e => is_log e = true -> logs_to l ctx e) events.

(** The custom fields the caller supplied: the value of the last
    [keyCustom] option. *)
Fixpoint supplied_customs (options : list ErrorOption) : option JSONMap :=
  match options with
  | [] => None
  | o :: rest =>
      match supplied_customs rest with
      | Some m => Some m
      | None =>
          match o with
          | keyCustom m => Some m
          | _ => None
          end
      end
  end.

(** The debug flag the options of [New] ask for: the value of the last
    [keyDebug] option. *)
Fixpoint supplied_debug (options : list Consolidated.Option) : option bool :=
  match options with
  | [] => None
  | o :: rest =>
      match supplied_debug rest with
      | Some b => Some b
      | None =>
          match o with
          | Consolidated.keyDebug b => Some b
          | _ => None
          end
      end
  end.

(** The spellings that [strconv.ParseBool] reads as true. *)
Definition true_spellings : list string :=
  ["1"; "t"; "T"; "true"; "TRUE"; "True"].

(** [req.Header.Get(key)] for a key in canonical form. *)
Definition header_Get (key : string) (req : Request) : option string :=
  match find (fun kv => String.eqb (fst kv) key) (req_header req) with
  | Some kv => Some (snd kv)
  | None => None
  end.

(** How many entries the header has under [key]. *)
Definition header_count (key : string) (req : Request) : nat :=
  length (filter (fun kv => String.eqb (fst kv) key) (req_header req)).

(** An environment with another serializer, request constructor or
    transport. *)
Definition with_Marshal (f : api.Payload -> result bytes) (env : Env) : Env :=
  mkEnv (language env) (Name env) (Version env) (UserAgent env)
    (CreateStack env) (errorBody env) (time_Now_Unix env) (rand_Read env)
    f
    (json_MarshalIndent_Payload env) (json_MarshalIndent_Response env)
    (json_MarshalIndent_map env) (json_Unmarshal_Response env)
    (json_Unmarshal_map env) (json_Decode_Response env)
    (json_Decode_interface env) (http_NewRequest env) (ctxhttp_Do env).

Definition with_NewRequest
    (f : string -> string -> bytes -> result Request) (env : Env) : Env :=
  mkEnv (language env) (Name env) (Version env) (UserAgent env)
    (CreateStack env) (errorBody env) (time_Now_Unix env) (rand_Read env)
    (json_Marshal env)
    (json_MarshalIndent_Payload env) (json_MarshalIndent_Response env)
    (json_MarshalIndent_map env) (json_Unmarshal_Response env)
    (json_Unmarshal_map env) (json_Decode_Response env)
    (json_Decode_interface env) f (ctxhttp_Do env).

(** The reader that [parseResponse] hands to the decoder: the body
    itself, or with the debug flag the buffer that [io.Copy] has filled. *)
Definition seen_by_decoder (debug : bool) (rdr : Reader) : Reader :=
  if debug then bytes_Buffer (fst (io_Copy rdr)) else rdr.

(** The value of the last option of [New] that [pick] selects. *)
Fixpoint last_option {A : Type} (pick : Consolidated.Option -> option A)
    (options : list Consolidated.Option) : option A :=
  match options with
  | [] => None
  | o :: rest =>
      match last_option pick rest with
      | Some a => Some a
      | None => pick o
      end
  end.

Definition or_default {A : Type} (default : A) (x : option A) : A :=
  match x with
  | Some a => a
  | None => default
  end.

Definition pick_HTTPClient (o : Consolidated.Option) : option nat :=
  match o with Consolidated.keyHTTPClient cl => Some cl | _ => None end.

Definition pick_Endpoint (o : Consolidated.Option) : option string :=
  match o with Consolidated.keyEndpoint url => Some url | _ => None end.

Definition pick_Logger (o : Consolidated.Option) : option Logger :=
  match o with Consolidated.keyLogger l => Some l | _ => None end.

Definition pick_Environment (o : Consolidated.Option) : option string :=
  match o with Consolidated.keyEnvironment name => Some name | _ => None end.

Definition pick_CodeVersion (o : Consolidated.Option) : option string :=
  match o with Consolidated.keyCodeVersion v => Some v | _ => None end.

Definition pick_ServerRoot (o : Consolidated.Option) : option string :=
  match o with Consolidated.keyServerRoot root => Some root | _ => None end.

Definition is_keyUnknown (o : Consolidated.Option) : bool :=
  match o with Consolidated.keyUnknown _ => true | _ => false end.

(** * A concrete setting

    One client of each kind and a small environment whose JSON codec knows
    two response documents; the server is a parameter. *)

Definition quoted (s : string) : string :=
  String (ascii_of_nat 34) s ++ String (ascii_of_nat 34) "".

(** The document {err:0, result:{uuid:id}} as the service sends it. *)
Definition response_body (id : string) : bytes :=
  "{" ++ quoted "err" ++ ":0," ++ quoted "result" ++ ":{"
      ++ quoted "uuid" ++ ":" ++ quoted id ++ "}}".

Definition demo_Unmarshal_Response (b : bytes) : result api.Response :=
  if String.eqb b (response_body "X")
  then ok (api.mkResponse 0 (api.mkResult "X") "")
  else if String.eqb b (response_body "Y")
  then ok (api.mkResponse 0 (api.mkResult "Y") "")
  else failed (foreign_error "invalid character").

Definition demo_Unmarshal_map (b : bytes) : result JSONMap :=
  match demo_Unmarshal_Response b with
  | ok r =>
      ok [("err", JNumber (api.Err r));
          ("result", JObject [("uuid", JString (api.UUID (api.Result_ r)))])]
  | failed e => failed e
  end.

(** The error of the decoder on a reader that holds no whole document:
    bytes that only start one of the two documents are an incomplete
    value, for which the decoder returns the error of the failed [Read],
    or [io.EOF] (nothing read) or [io.ErrUnexpectedEOF] at end of file;
    any other bytes are malformed. *)
Definition demo_Decode_error (rdr : Reader) (malformed : error) : error :=
  if String.prefix (unread rdr) (response_body "X")
     || String.prefix (unread rdr) (response_body "Y")
  then
    match read_error rdr with
    | Some e => e
    | None =>
        if String.eqb (unread rdr) "" then io_EOF else io_ErrUnexpectedEOF
    end
  else malformed.

Definition demo_Decode_Response (old : api.Response) (rdr : Reader)
    : api.Response * option error :=
  match demo_Unmarshal_Response (unread rdr) with
  | ok r => (r, None)
  | failed e => (old, Some (demo_Decode_error rdr e))
  end.

Definition demo_Decode_interface (rdr : Reader) : result JSON :=
  match demo_Unmarshal_map (unread rdr) with
  | ok m => ok (JObject m)
  | failed e => failed (demo_Decode_error rdr e)
  end.

Definition demo_Marshal (p : api.Payload) : result bytes :=
  ok ("{" ++ quoted "access_token" ++ ":" ++ quoted (api.AccessToken p) ++ "}").

Definition demo_env
    (server : list Event -> Context -> nat -> Request -> Exchange) : Env :=
  mkEnv "go" "go-rollbar" "0.0.0" "go-rollbar/0.0.0"
    (fun _ => [mkFrame "main.go" "main.main" 10])
    (fun _ _ => JNull)
    1500000000
    (fun n => repeat (Z.of_nat n) 16)
    demo_Marshal
    (fun p => api.AccessToken p)
    (fun r => api.UUID (api.Result_ r))
    (fun _ => "{}")
    demo_Unmarshal_Response
    demo_Unmarshal_map
    demo_Decode_Response
    demo_Decode_interface
    (fun method url body => ok (mkRequest method url [] body))
    server.

(** A server that answers every request with [resp]. *)
Definition answers (resp : HTTPResponse)
    : list Event -> Context -> nat -> Request -> Exchange :=
  fun _ _ _ _ => Responded resp.

(** A caller that cancels before the server answers: [ctxhttp.Do] comes
    back with the context's error and the context is done. *)
Definition abandoned
    : list Event -> Context -> nat -> Request -> Exchange :=
  fun _ _ _ _ => Failed context_Canceled (Some context_Canceled).

Definition ok_200 (id : string) : HTTPResponse :=
  mkHTTPResponse 200 "200 OK" (mkReader (response_body id) None).

Definition error_500 : HTTPResponse :=
  mkHTTPResponse 500 "500 Internal Server Error" (mkReader "oops" None).

Definition demo_client (tok : string) (dbg : bool) : Consolidated.Client :=
  Consolidated.mkClient tok 0 "https://api.rollbar.com/api/1/item/" dbg
    traceLogger "development" "linux" "" "localhost" "".

Definition demo_httpClient (tok : string) (dbg : bool) : PerLevel.httpClient :=
  PerLevel.mkHttpClient tok 0 "https://api.rollbar.com/api/1/item/" dbg
    traceLogger "development" "linux" "" "localhost" "" "" 3.

Definition demo_digest (ids : list (string * string * Z)) : string :=
  String.concat "|" (map (fun i => fst (fst i) ++ "@" ++ snd (fst i)) ids).

Definition demo_request : Request :=
  mkRequest "POST" "https://api.rollbar.com/api/1/item/"
    [("Content-Type", "application/json")] "{}".

Definition env_500 : Env := demo_env (answers error_500).
Definition env_X : Env := demo_env (answers (ok_200 "X")).
Definition env_Y : Env := demo_env (answers (ok_200 "Y")).
Definition env_abandoned : Env := demo_env abandoned.


(** A body whose connection is reset after the first bytes of the
    document have arrived. *)
Definition reset_body : Reader :=
  mkReader ("{" ++ quoted "err" ++ ":0,")
    (Some (foreign_error "read: connection reset by peer")).

Definition w0 : World := mkWorld [] 0.

Definition empty_Response : api.Response :=
  api.mkResponse 0 (api.mkResult "") "".

(** An option of the per-level [New] that sets the platform. *)
Definition PerLevel_set_platform (name : string) : PerLevel.Option :=
  fun c =>
    PerLevel.mkHttpClient (PerLevel.token c) (PerLevel.client c)
      (PerLevel.endpoint c) (PerLevel.debug c) (PerLevel.logger c)
      (PerLevel.environment c) name (PerLevel.codeVersion c)
      (PerLevel.serverHost c) (PerLevel.serverRoot c)
      (PerLevel.serverBranch c) (PerLevel.stackskip c).

(** A process with the given value of ROLLBAR_DEBUG. *)
Definition demo_proc (rollbar_debug : string) : Process :=
  mkProcess
    (fun key => if String.eqb key "ROLLBAR_DEBUG" then rollbar_debug else "")
    ("build-host", None) "linux" "https://api.rollbar.com/api/1/item/" 0.

(** A server that cannot be reached while the caller's context is live. *)
Definition refused : list Event -> Context -> nat -> Request -> Exchange :=
  fun _ _ _ _ => Failed (foreign_error "connection refused") None.

Definition env_refused : Env := demo_env refused.

Definition env_bad_marshal : Env :=
  with_Marshal (fun _ => failed (foreign_error "json: unsupported value"))
    env_X.

Definition env_bad_url : Env :=
  with_NewRequest
    (fun _ _ _ => failed (foreign_error "parse: missing protocol scheme"))
    env_X.

(** * Properties *)

(** ** Running the monad *)

Lemma run_ret {A : Type} (a : A) (w : World) : run (ret a) w = (a, w).
Proof. reflexivity. Qed.

Lemma run_bind {A B : Type} (m : M A) (k : A -> M B) (w : World) :
  run (bind m k) w = run (k (fst (run m w))) (snd (run m w)).
Proof.
  unfold run. cbn. destruct (runState m w). reflexivity.
Qed.

Lemma run_emit (e : Event) (w : World) : run (emit e) w = (tt, logged e w).
Proof. reflexivity. Qed.

Lemma run_do_request (env : Env) (ctx : Context) (client : nat)
    (req : Request) (w : World) :
  run (do_request env ctx client req) w
    = (ctxhttp_Do env (trace w) ctx client req, logged (ev_send ctx req) w).
Proof. reflexivity. Qed.

(** ** The access token *)

(** C1: with an empty access token the consolidated [post] returns the
    error "empty token" and leaves the world as it was (no UUID drawn,
    nothing logged, no request sent), whatever the serializer, the request
    constructor and the transport would have done; [newRequest] of the
    per-level client fails the same way, so there is no request to hand to
    [Do]. *)
Theorem empty_token_fails_before_any_activity :
  forall (digest : list (string * string * Z) -> string) (env : Env)
         (c : Consolidated.Client) (hc : PerLevel.httpClient)
         (pctx : Context) (level : Level) (err : option error)
         (options : list ErrorOption) (p : api.Payload) (w : World),
    Consolidated.token c = "" ->
    PerLevel.token hc = "" ->
    run (Consolidated.post env c pctx level err options) w
      = (Some (errors_New "empty token"), w)
    /\ PerLevel.newRequest env hc p = failed (errors_New "empty token")
    /\ PerLevel.newRequest env hc (PerLevel.payload digest env hc level err)
         = failed (errors_New "empty token").
Proof.
  intros digest env c hc pctx level err options p w Hc Hhc.
  unfold Consolidated.post, PerLevel.newRequest.
  rewrite Hc, Hhc. cbn. auto.
Qed.

Lemma empty_token_fails_before_any_activity_witness :
  run (Consolidated.post (demo_env (answers (ok_200 "X")))
         (demo_client "" true) context_Background ErrorLevel
         (Some (foreign_error "boom")) [keyUUID "abc"]) w0
    = (Some (errors_New "empty token"), w0)
  /\ PerLevel.newRequest (demo_env (answers (ok_200 "X")))
       (demo_httpClient "" true)
       (api.mkPayload "" (api.mkData "" JNull "" "" 0 "" "" ""
          (api.mkServer "" "" "") "" (api.mkNotifier "" "") None ""))
     = failed (errors_New "empty token")
  /\ PerLevel.newRequest (demo_env (answers (ok_200 "X")))
       (demo_httpClient "" true)
       (PerLevel.payload demo_digest (demo_env (answers (ok_200 "X")))
          (demo_httpClient "" true) ErrorLevel (Some (foreign_error "boom")))
     = failed (errors_New "empty token").
Proof.
  apply empty_token_fails_before_any_activity; reflexivity.
Defined.

(** ** The payload *)

(** What the loop over the options leaves in [id]. *)
Lemma fold_apply_option_id (options : list ErrorOption)
    (acc : option JSONMap * string) :
  snd (fold_left Consolidated.apply_option options acc)
    = match supplied_id options with
      | Some id => id
      | None => snd acc
      end.
Proof.
  revert acc. induction options as [| o rest IH]; intros acc; cbn.
  - reflexivity.
  - rewrite IH. destruct (supplied_id rest); [reflexivity |].
    destruct o; reflexivity.
Qed.

(** Identifier options do not touch [customs]. *)
Lemma fold_apply_option_customs (options : list ErrorOption)
    (acc : option JSONMap * string) :
  fst (fold_left Consolidated.apply_option (without_id options) acc)
    = fst (fold_left Consolidated.apply_option options acc).
Proof.
  revert acc. induction options as [| o rest IH]; intros acc; cbn.
  - reflexivity.
  - destruct o as [m | id | k]; cbn.
    + apply IH.
    + rewrite IH.
      assert (G : forall l a b,
        fst a = fst b ->
        fst (fold_left Consolidated.apply_option l a)
          = fst (fold_left Consolidated.apply_option l b)).
      { induction l as [| x l IHl]; intros a b Hab; cbn; [exact Hab |].
        apply IHl. destruct x; cbn; congruence. }
      apply G. reflexivity.
    + apply IH.
Qed.

Lemma supplied_id_without_id (options : list ErrorOption) :
  supplied_id (without_id options) = None.
Proof.
  unfold without_id.
  induction options as [| o rest IH]; cbn; [reflexivity |].
  destruct o; cbn; [rewrite IH; reflexivity | exact IH
                    | rewrite IH; reflexivity].
Qed.

Lemma payload_run (env : Env) (c : Consolidated.Client) (level : Level)
    (err : option error) (options : list ErrorOption) (w : World) :
  run (Consolidated.payload env c level err options) w
    = let customs := fst (fold_left Consolidated.apply_option options (None, "")) in
      match supplied_id options with
      | Some (String a s) => (payload_with env c level err customs (String a s), w)
      | _ => (payload_with env c level err customs (fresh_id env w),
              mkWorld (trace w) (S (uuids_drawn w)))
      end.
Proof.
  unfold Consolidated.payload.
  pose proof (fold_apply_option_id options (None, "")) as Hid.
  destruct (fold_left Consolidated.apply_option options (None, ""))
    as [customs id] eqn:Hfold.
  cbn [fst snd] in *.
  destruct (supplied_id options) as [[| a s] |]; subst id; reflexivity.
Qed.

(** ** Occurrence identifiers *)









Lemma UUID_String_nonempty (u : UUID) : UUID_String u <> "".
Proof.
  unfold UUID_String.
  destruct (hex_Encode (slice 0 4 u)); cbn; discriminate.
Qed.

Lemma fresh_id_nonempty (env : Env) (w : World) : fresh_id env w <> "".
Proof. apply UUID_String_nonempty. Qed.

(** C6: in both clients the payload's title is the sentinel "<nil>" when
    the error is nil, and the error's [Error()] text otherwise. *)
Theorem payload_title :
  forall (digest : list (string * string * Z) -> string) (env : Env)
         (c : Consolidated.Client) (hc : PerLevel.httpClient)
         (level : Level) (options : list ErrorOption) (w : World),
    (api.Title (api.Data_
        (fst (run (Consolidated.payload env c level None options) w)))
       = "<nil>"
     /\ api.Title (api.Data_ (PerLevel.payload digest env hc level None))
       = "<nil>")
    /\ (forall e : error,
         api.Title (api.Data_
           (fst (run (Consolidated.payload env c level (Some e) options) w)))
           = Error e
         /\ api.Title (api.Data_ (PerLevel.payload digest env hc level (Some e)))
           = Error e).
Proof.
  intros digest env c hc level options w.
  split; [| intros e]; (split; [| reflexivity]);
    rewrite payload_run; cbn zeta;
    destruct (supplied_id options) as [[| a s] |]; reflexivity.
Qed.

(** C10: when the identifier the options leave is the empty string, the
    consolidated payload is the one built from the options without any
    identifier: its UUID is the next one of the generator; and whatever
    the options are, the payload's UUID is never the empty string. *)
Theorem empty_identifier_is_absent :
  forall (env : Env) (c : Consolidated.Client) (level : Level)
         (err : option error) (options : list ErrorOption) (w : World),
    supplied_id options = Some "" ->
    run (Consolidated.payload env c level err options) w
      = run (Consolidated.payload env c level err (without_id options)) w
    /\ api.DataUUID (api.Data_
         (fst (run (Consolidated.payload env c level err options) w)))
       = fresh_id env w
    /\ uuids_drawn (snd (run (Consolidated.payload env c level err options) w))
       = S (uuids_drawn w)
    /\ (forall options' w',
         api.DataUUID (api.Data_
           (fst (run (Consolidated.payload env c level err options') w')))
         <> "").
Proof.
  intros env c level err options w Hid.
  rewrite !payload_run, supplied_id_without_id, Hid,
    fold_apply_option_customs.
  cbn zeta. repeat split.
  intros options' w'. rewrite payload_run. cbn zeta.
  destruct (supplied_id options') as [[| a s] |]; cbn;
    try apply fresh_id_nonempty; discriminate.
Qed.

Lemma empty_identifier_is_absent_witness :
  run (Consolidated.payload env_X (demo_client "tok" false) InfoLevel None
         [keyUUID "abc"; keyCustom []; keyUUID ""]) w0
    = run (Consolidated.payload env_X (demo_client "tok" false) InfoLevel None
             (without_id [keyUUID "abc"; keyCustom []; keyUUID ""])) w0
  /\ api.DataUUID (api.Data_
       (fst (run (Consolidated.payload env_X (demo_client "tok" false)
                    InfoLevel None
                    [keyUUID "abc"; keyCustom []; keyUUID ""]) w0)))
     = "00000000-0000-4000-8000-000000000000".
Proof.
  destruct (empty_identifier_is_absent env_X (demo_client "tok" false)
              InfoLevel None [keyUUID "abc"; keyCustom []; keyUUID ""] w0)
    as [H1 [H2 _]].
  - reflexivity.
  - split; [exact H1 |]. rewrite H2. reflexivity.
Defined.

(** ** The consolidated [post], step by step *)

Lemma post_run (env : Env) (c : Consolidated.Client) (pctx : Context)
    (level : Level) (err : option error) (options : list ErrorOption)
    (w w1 : World) (p : api.Payload) (data : bytes) (req : Request) :
  Consolidated.token c <> "" ->
  run (Consolidated.payload env c level err options) w = (p, w1) ->
  json_Marshal env p = ok data ->
  http_NewRequest env http_MethodPost (Consolidated.endpoint c) data = ok req ->
  let ctx := context_WithCancel pctx in
  let req' := Header_Set "Content-Type" "application/json" req in
  let ws := before_send env c pctx p w1 in
  run (Consolidated.post env c pctx level err options) w
    = match ctxhttp_Do env (trace ws) ctx (Consolidated.client c) req' with
      | Failed e _ =>
          (Some (errors_Wrap e "failed to POST to rollbar"),
           logged (ev_cancel ctx) (logged (ev_send ctx req') ws))
      | Responded resp =>
          let r :=
            run (if negb (StatusCode resp =? 200)
                 then ret (Some (errors_New
                        ("received response: " ++ Status resp)))
                 else Consolidated.parseResponse env c pctx (RespBody resp)
                        (Consolidated.any_bytes data))
                (logged (ev_send ctx req') ws) in
          (fst r, logged (ev_cancel ctx) (logged ev_close_body (snd r)))
      end.
Proof.
  intros Htok Hp Hm Hr ctx req' ws.
  unfold Consolidated.post.
  apply String.eqb_neq in Htok. rewrite Htok.
  rewrite run_bind, Hp. cbn [fst snd]. rewrite Hm.
  rewrite run_bind.
  assert (Hlog :
    run (if Consolidated.debug c
         then Consolidated.logger_Debug c pctx
                (json_MarshalIndent_Payload env p) []
         else ret tt) w1 = (tt, ws)).
  { unfold ws, before_send. destruct (Consolidated.debug c); reflexivity. }
  rewrite Hlog. cbn [fst snd]. rewrite Hr.
  subst ctx req'. cbn zeta.
  rewrite run_bind, run_do_request. cbn [fst snd].
  destruct (ctxhttp_Do env (trace ws) _ _ _) as [resp | e ce].
  - rewrite run_bind.
    destruct (run _ (logged _ ws)) as [r wr] eqn:Hrun.
    reflexivity.
  - reflexivity.
Qed.

(** ** Parsing the response *)

Lemma Consolidated_parseResponse_value (env : Env) (c : Consolidated.Client)
    (ctx : Context) (rdr : Reader) (data : Consolidated.any) (w : World) :
  fst (run (Consolidated.parseResponse env c ctx rdr data) w)
    = snd (Consolidated.Decode env
             (seen_by_decoder (Consolidated.debug c) rdr) data).
Proof.
  unfold Consolidated.parseResponse, seen_by_decoder. rewrite run_bind.
  destruct (Consolidated.debug c).
  - unfold io_Copy. cbn -[Consolidated.Decode].
    destruct (json_Unmarshal_Response env (unread rdr)); cbn -[Consolidated.Decode];
      destruct (Consolidated.Decode env (bytes_Buffer (unread rdr)) data);
      reflexivity.
  - rewrite run_ret. cbn [fst snd].
    destruct (Consolidated.Decode env rdr data); reflexivity.
Qed.

Lemma Consolidated_parseResponse_quiet (env : Env) (c : Consolidated.Client)
    (ctx : Context) (rdr : Reader) (data : Consolidated.any) (w : World) :
  Consolidated.debug c = false ->
  snd (run (Consolidated.parseResponse env c ctx rdr data) w) = w.
Proof.
  intros Hd. unfold Consolidated.parseResponse. rewrite run_bind, Hd, run_ret.
  cbn [fst snd]. destruct (Consolidated.Decode env rdr data); reflexivity.
Qed.

Lemma PerLevel_parseResponse_value (env : Env) (c : PerLevel.httpClient)
    (ctx : Context) (rdr : Reader) (resp : api.Response) (w : World) :
  fst (run (PerLevel.parseResponse env c ctx rdr resp) w)
    = json_Decode_Response env resp (seen_by_decoder (PerLevel.debug c) rdr).
Proof.
  unfold PerLevel.parseResponse, seen_by_decoder. rewrite run_bind.
  destruct (PerLevel.debug c).
  - unfold io_Copy. cbn.
    destruct (json_Unmarshal_map env (unread rdr)); reflexivity.
  - reflexivity.
Qed.

(** C7: the connection is reset after the first bytes of the response
    document.  With the debug flag unset [parseResponse] returns the error
    of the failed read, in both clients; with the flag set, [io.Copy] has
    swallowed that error, the decoder is given the truncated copy, and
    what comes back is "unexpected EOF": the flag changes the result of
    decoding. *)
Theorem debug_changes_the_error_of_a_failed_read :
  fst (run (PerLevel.parseResponse env_X (demo_httpClient "tok" false)
              (context_value 1) reset_body empty_Response) w0)
    = (empty_Response, Some (foreign_error "read: connection reset by peer"))
  /\ fst (run (PerLevel.parseResponse env_X (demo_httpClient "tok" true)
                 (context_value 1) reset_body empty_Response) w0)
     = (empty_Response, Some io_ErrUnexpectedEOF)
  /\ fst (run (Consolidated.parseResponse env_X (demo_client "tok" false)
                 (context_value 1) reset_body (Consolidated.any_bytes "{}")) w0)
     = Some (foreign_error "read: connection reset by peer")
  /\ fst (run (Consolidated.parseResponse env_X (demo_client "tok" true)
                 (context_value 1) reset_body (Consolidated.any_bytes "{}")) w0)
     = Some io_ErrUnexpectedEOF
  /\ foreign_error "read: connection reset by peer" <> io_ErrUnexpectedEOF.
Proof.
  repeat split; try reflexivity. discriminate.
Qed.

(** ** The severity-leveled methods *)

(** C3: each of [Debug], [Info], [Warn], [Error] and [Critical] of the
    consolidated client returns nothing but the unit value, whatever [post]
    returns; when [post] fails, its error goes into one [Debug] call on the
    client's logger, and otherwise the world is the one [post] left. *)
Theorem report_methods_swallow_errors :
  forall (env : Env) (c : Consolidated.Client) (ctx : Context)
         (err : option error) (options : list ErrorOption) (w : World),
    run (Consolidated.Debug env c ctx err options) w
      = (tt, after_report "rollbar: Debug: %+v" c ctx
               (run (Consolidated.post env c ctx DebugLevel err options) w))
    /\ run (Consolidated.Info env c ctx err options) w
      = (tt, after_report "rollbar: Info: %+v" c ctx
               (run (Consolidated.post env c ctx InfoLevel err options) w))
    /\ run (Consolidated.Warn env c ctx err options) w
      = (tt, after_report "rollbar: Warn: %+v" c ctx
               (run (Consolidated.post env c ctx WarnLevel err options) w))
    /\ run (Consolidated.Error env c ctx err options) w
      = (tt, after_report "rollbar: Error: %+v" c ctx
               (run (Consolidated.post env c ctx ErrorLevel err options) w))
    /\ run (Consolidated.Critical env c ctx err options) w
      = (tt, after_report "rollbar: Critical: %+v" c ctx
               (run (Consolidated.post env c ctx CriticalLevel err options) w)).
Proof.
  intros env c ctx err options w.
  unfold Consolidated.Debug, Consolidated.Info, Consolidated.Warn,
    Consolidated.Error, Consolidated.Critical, after_report.
  repeat split; rewrite run_bind;
    match goal with
    | |- context [run (Consolidated.post ?e ?c ?x ?l ?r ?o) ?w] =>
        destruct (run (Consolidated.post e c x l r o) w) as [[e' |] w']
    end; reflexivity.
Qed.

(** ** The exchange with the server *)

Lemma Do_run (env : Env) (c : PerLevel.httpClient) (ctx : Context)
    (req : Request) (res : api.Response) (w : World) :
  run (PerLevel.Do env c ctx req res) w
    = match ctxhttp_Do env (trace w) ctx (PerLevel.client c) req with
      | Failed e (Some cerr) => ((res, Some cerr), logged (ev_send ctx req) w)
      | Failed e None =>
          ((res, Some (errors_Wrap e "failed to POST to rollbar")),
           logged (ev_send ctx req) w)
      | Responded resp =>
          let r :=
            run (if negb (StatusCode resp =? http_StatusOK)
                 then ret (res, Some (errors_New
                        ("received response: " ++ Status resp)))
                 else PerLevel.parseResponse env c ctx (RespBody resp) res)
                (logged (ev_send ctx req) w) in
          (fst r, logged ev_close_body (logged ev_drain_body (snd r)))
      end.
Proof.
  unfold PerLevel.Do. rewrite run_bind, run_do_request. cbn [fst snd].
  destruct (ctxhttp_Do env (trace w) ctx _ req) as [resp | e [cerr |]];
    try reflexivity.
  rewrite run_bind.
  destruct (run _ (logged _ w)) as [r wr]. reflexivity.
Qed.

(** C4: when the server answers with a status other than 200, both the
    consolidated [post] and [Do] of the per-level client return the error
    "received response: " followed by the status text; nothing is decoded
    or logged from the body and the caller's response value is left as it
    was.  With status 200 what they return is what [parseResponse] returns
    for the body. *)
Theorem non_200_is_remote_rejection :
  forall (env : Env) (c : Consolidated.Client) (hc : PerLevel.httpClient)
         (pctx : Context) (level : Level) (err : option error)
         (options : list ErrorOption) (w w1 wh : World) (p : api.Payload)
         (data : bytes) (req hreq : Request) (res : api.Response)
         (resp hresp : HTTPResponse),
    Consolidated.token c <> "" ->
    run (Consolidated.payload env c level err options) w = (p, w1) ->
    json_Marshal env p = ok data ->
    http_NewRequest env http_MethodPost (Consolidated.endpoint c) data
      = ok req ->
    ctxhttp_Do env (trace (before_send env c pctx p w1))
      (context_WithCancel pctx) (Consolidated.client c)
      (Header_Set "Content-Type" "application/json" req) = Responded resp ->
    ctxhttp_Do env (trace wh) pctx (PerLevel.client hc) hreq
      = Responded hresp ->
    (StatusCode resp <> 200 ->
       run (Consolidated.post env c pctx level err options) w
         = (Some (errors_New ("received response: " ++ Status resp)),
            logged (ev_cancel (context_WithCancel pctx))
              (logged ev_close_body
                 (logged (ev_send (context_WithCancel pctx)
                            (Header_Set "Content-Type" "application/json" req))
                    (before_send env c pctx p w1)))))
    /\ (StatusCode resp = 200 ->
          fst (run (Consolidated.post env c pctx level err options) w)
            = fst (run (Consolidated.parseResponse env c pctx (RespBody resp)
                          (Consolidated.any_bytes data))
                     (logged (ev_send (context_WithCancel pctx)
                                (Header_Set "Content-Type" "application/json" req))
                        (before_send env c pctx p w1))))
    /\ (StatusCode hresp <> 200 ->
          run (PerLevel.Do env hc pctx hreq res) wh
            = ((res, Some (errors_New ("received response: " ++ Status hresp))),
               logged ev_close_body
                 (logged ev_drain_body (logged (ev_send pctx hreq) wh))))
    /\ (StatusCode hresp = 200 ->
          fst (run (PerLevel.Do env hc pctx hreq res) wh)
            = fst (run (PerLevel.parseResponse env hc pctx (RespBody hresp) res)
                     (logged (ev_send pctx hreq) wh))).
Proof.
  intros env c hc pctx level err options w w1 wh p data req hreq res
    resp hresp Htok Hp Hm Hr Hex Hhex.
  rewrite (post_run env c pctx level err options w w1 p data req Htok Hp Hm Hr).
  cbn zeta. rewrite Hex, Do_run, Hhex. cbn zeta. unfold http_StatusOK.
  repeat split; intros Hs.
  - apply Z.eqb_neq in Hs. rewrite Hs. reflexivity.
  - apply Z.eqb_eq in Hs. rewrite Hs. reflexivity.
  - apply Z.eqb_neq in Hs. rewrite Hs. reflexivity.
  - apply Z.eqb_eq in Hs. rewrite Hs. reflexivity.
Qed.

Lemma non_200_is_remote_rejection_witness :
  (fst (run (Consolidated.post env_500 (demo_client "tok" true)
               (context_value 1) ErrorLevel None []) w0)
     = Some (errors_New "received response: 500 Internal Server Error")
   /\ run (PerLevel.Do env_500 (demo_httpClient "tok" true) (context_value 1)
             demo_request empty_Response) w0
     = ((empty_Response,
         Some (errors_New "received response: 500 Internal Server Error")),
        mkWorld [ev_send (context_value 1) demo_request;
                 ev_drain_body; ev_close_body] 0))
  /\ (fst (run (Consolidated.post env_X (demo_client "tok" true)
                  (context_value 1) ErrorLevel None []) w0)
        = None
      /\ fst (run (PerLevel.Do env_X (demo_httpClient "tok" true)
                     (context_value 1) demo_request empty_Response) w0)
        = (api.mkResponse 0 (api.mkResult "X") "", None)).
Proof.
  split.
  - destruct (non_200_is_remote_rejection env_500
      (demo_client "tok" true) (demo_httpClient "tok" true)
      (context_value 1) ErrorLevel None [] w0
      (snd (run (Consolidated.payload env_500 (demo_client "tok" true)
                   ErrorLevel None []) w0))
      w0
      (fst (run (Consolidated.payload env_500 (demo_client "tok" true)
                   ErrorLevel None []) w0))
      ("{" ++ quoted "access_token" ++ ":" ++ quoted "tok" ++ "}")
      (mkRequest "POST" "https://api.rollbar.com/api/1/item/" []
         ("{" ++ quoted "access_token" ++ ":" ++ quoted "tok" ++ "}"))
      demo_request empty_Response error_500 error_500)
      as [H1 [_ [H3 _]]];
      try reflexivity; try discriminate.
    split.
    + rewrite H1 by (cbn; lia). reflexivity.
    + rewrite H3 by (cbn; lia). reflexivity.
  - destruct (non_200_is_remote_rejection env_X
      (demo_client "tok" true) (demo_httpClient "tok" true)
      (context_value 1) ErrorLevel None [] w0
      (snd (run (Consolidated.payload env_X (demo_client "tok" true)
                   ErrorLevel None []) w0))
      w0
      (fst (run (Consolidated.payload env_X (demo_client "tok" true)
                   ErrorLevel None []) w0))
      ("{" ++ quoted "access_token" ++ ":" ++ quoted "tok" ++ "}")
      (mkRequest "POST" "https://api.rollbar.com/api/1/item/" []
         ("{" ++ quoted "access_token" ++ ":" ++ quoted "tok" ++ "}"))
      demo_request empty_Response (ok_200 "X") (ok_200 "X"))
      as [_ [H2 [_ H4]]];
      try reflexivity; try discriminate.
    split.
    + rewrite H2 by reflexivity. reflexivity.
    + rewrite H4 by reflexivity. reflexivity.
Defined.

(** The per-level [Do] hands back the context's own error. *)
Lemma Do_returns_context_error (env : Env) (c : PerLevel.httpClient)
    (ctx : Context) (req : Request) (res : api.Response) (w : World)
    (e cerr : error) :
  ctxhttp_Do env (trace w) ctx (PerLevel.client c) req
    = Failed e (Some cerr) ->
  fst (run (PerLevel.Do env c ctx req res) w) = (res, Some cerr).
Proof. intros H. rewrite Do_run, H. reflexivity. Qed.

(** The consolidated [post] wraps whatever error the transport reports. *)
Lemma post_wraps_transport_error (env : Env) (c : Consolidated.Client)
    (pctx : Context) (level : Level) (err : option error)
    (options : list ErrorOption) (w w1 : World) (p : api.Payload)
    (data : bytes) (req : Request) (e : error) (ce : option error) :
  Consolidated.token c <> "" ->
  run (Consolidated.payload env c level err options) w = (p, w1) ->
  json_Marshal env p = ok data ->
  http_NewRequest env http_MethodPost (Consolidated.endpoint c) data = ok req ->
  ctxhttp_Do env (trace (before_send env c pctx p w1))
    (context_WithCancel pctx) (Consolidated.client c)
    (Header_Set "Content-Type" "application/json" req) = Failed e ce ->
  fst (run (Consolidated.post env c pctx level err options) w)
    = Some (errors_Wrap e "failed to POST to rollbar").
Proof.
  intros Htok Hp Hm Hr Hex.
  rewrite (post_run env c pctx level err options w w1 p data req Htok Hp Hm Hr).
  cbn zeta. rewrite Hex. reflexivity.
Qed.

(** C2: a caller cancels the context before the server answers, so
    [ctxhttp.Do] comes back with [context.Canceled].  [Do] of the per-level
    client returns [context.Canceled] itself; the consolidated [post]
    returns it wrapped as "failed to POST to rollbar: context canceled",
    the wrapping it gives every transport failure, and not the context's
    own error, which is left only as the cause of what it returns. *)
Theorem post_wraps_the_cancellation_error :
  fst (run (Consolidated.post env_abandoned (demo_client "tok" false)
              (context_value 1) ErrorLevel (Some (foreign_error "boom")) [])
         w0)
    = Some (errors_Wrap context_Canceled "failed to POST to rollbar")
  /\ errors_Wrap context_Canceled "failed to POST to rollbar"
       <> context_Canceled
  /\ Error (errors_Wrap context_Canceled "failed to POST to rollbar")
       = "failed to POST to rollbar: context canceled"
  /\ Cause (errors_Wrap context_Canceled "failed to POST to rollbar")
       = context_Canceled
  /\ fst (run (PerLevel.Do env_abandoned (demo_httpClient "tok" false)
                 (context_value 1) demo_request empty_Response) w0)
       = (empty_Response, Some context_Canceled).
Proof.
  repeat split; try reflexivity. discriminate.
Qed.

(** ** What the caller gets to see of the response *)

(** C8, as stated, fails for the consolidated client: against a server
    that answers 200 with the identifier X and one that answers 200 with
    the identifier Y, [post] gives its caller the same result and the same
    recorded calls, although the two bodies decode to different values. *)
Lemma post_hides_the_decoded_body :
  run (Consolidated.post env_X (demo_client "tok" false) (context_value 1)
         ErrorLevel None [keyUUID "id-1"]) w0
    = run (Consolidated.post env_Y (demo_client "tok" false) (context_value 1)
             ErrorLevel None [keyUUID "id-1"]) w0
  /\ fst (run (Consolidated.post env_X (demo_client "tok" false)
                 (context_value 1) ErrorLevel None [keyUUID "id-1"]) w0)
       = None
  /\ json_Decode_interface env_X (RespBody (ok_200 "X"))
       = ok (JObject [("err", JNumber 0);
                      ("result", JObject [("uuid", JString "X")])])
  /\ json_Decode_interface env_Y (RespBody (ok_200 "Y"))
       = ok (JObject [("err", JNumber 0);
                      ("result", JObject [("uuid", JString "Y")])])
  /\ JObject [("err", JNumber 0); ("result", JObject [("uuid", JString "X")])]
       <> JObject [("err", JNumber 0);
                   ("result", JObject [("uuid", JString "Y")])].
Proof.
  repeat split; try reflexivity. discriminate.
Qed.

(** C8, amended: when the server answers 200, [Do] of the per-level client
    leaves in the caller's response value what the decoder produced and
    returns the decoder's error, so a body that decodes gives success
    whatever its err field says; the consolidated [post] returns only an
    error value, nil when the body decodes and the decoder's error
    otherwise. *)
Theorem decoded_body_and_transport_success :
  forall (env : Env) (c : Consolidated.Client) (hc : PerLevel.httpClient)
         (pctx : Context) (level : Level) (err : option error)
         (options : list ErrorOption) (w w1 wh : World) (p : api.Payload)
         (data : bytes) (req hreq : Request) (res : api.Response)
         (resp hresp : HTTPResponse),
    Consolidated.token c <> "" ->
    run (Consolidated.payload env c level err options) w = (p, w1) ->
    json_Marshal env p = ok data ->
    http_NewRequest env http_MethodPost (Consolidated.endpoint c) data
      = ok req ->
    ctxhttp_Do env (trace (before_send env c pctx p w1))
      (context_WithCancel pctx) (Consolidated.client c)
      (Header_Set "Content-Type" "application/json" req) = Responded resp ->
    StatusCode resp = 200 ->
    ctxhttp_Do env (trace wh) pctx (PerLevel.client hc) hreq
      = Responded hresp ->
    StatusCode hresp = 200 ->
    fst (run (PerLevel.Do env hc pctx hreq res) wh)
      = json_Decode_Response env res
          (seen_by_decoder (PerLevel.debug hc) (RespBody hresp))
    /\ (forall decoded : api.Response,
          json_Decode_Response env res
            (seen_by_decoder (PerLevel.debug hc) (RespBody hresp))
            = (decoded, None) ->
          fst (run (PerLevel.Do env hc pctx hreq res) wh) = (decoded, None))
    /\ fst (run (Consolidated.post env c pctx level err options) w)
         = match json_Decode_interface env
                   (seen_by_decoder (Consolidated.debug c) (RespBody resp)) with
           | ok _ => None
           | failed e => Some e
           end.
Proof.
  intros env c hc pctx level err options w w1 wh p data req hreq res
    resp hresp Htok Hp Hm Hr Hex Hs Hhex Hhs.
  assert (HDo : fst (run (PerLevel.Do env hc pctx hreq res) wh)
                = json_Decode_Response env res
                    (seen_by_decoder (PerLevel.debug hc) (RespBody hresp))).
  { rewrite Do_run, Hhex. cbn zeta. unfold http_StatusOK.
    apply Z.eqb_eq in Hhs. rewrite Hhs. cbn [negb fst].
    apply PerLevel_parseResponse_value. }
  split; [exact HDo |]. split.
  - intros decoded Hd. rewrite HDo. exact Hd.
  - rewrite (post_run env c pctx level err options w w1 p data req Htok Hp Hm Hr).
    cbn zeta. rewrite Hex. apply Z.eqb_eq in Hs. rewrite Hs. cbn [negb fst].
    rewrite Consolidated_parseResponse_value. unfold Consolidated.Decode.
    destruct (json_Decode_interface env _); reflexivity.
Qed.

Lemma decoded_body_and_transport_success_witness :
  fst (run (PerLevel.Do env_X (demo_httpClient "tok" false) (context_value 1)
              demo_request empty_Response) w0)
    = (api.mkResponse 0 (api.mkResult "X") "", None)
  /\ fst (run (Consolidated.post env_X (demo_client "tok" false)
                 (context_value 1) ErrorLevel None []) w0)
       = None.
Proof.
  destruct (decoded_body_and_transport_success env_X
    (demo_client "tok" false) (demo_httpClient "tok" false)
    (context_value 1) ErrorLevel None [] w0
    (snd (run (Consolidated.payload env_X (demo_client "tok" false)
                 ErrorLevel None []) w0))
    w0
    (fst (run (Consolidated.payload env_X (demo_client "tok" false)
                 ErrorLevel None []) w0))
    ("{" ++ quoted "access_token" ++ ":" ++ quoted "tok" ++ "}")
    (mkRequest "POST" "https://api.rollbar.com/api/1/item/" []
       ("{" ++ quoted "access_token" ++ ":" ++ quoted "tok" ++ "}"))
    demo_request empty_Response (ok_200 "X") (ok_200 "X"))
    as [H1 [_ H3]];
    try reflexivity; try discriminate.
  split.
  - rewrite H1. reflexivity.
  - rewrite H3. reflexivity.
Defined.

(** ** Occurrence identifiers of consecutive payloads *)




(** * Constructing a client *)

Lemma ParseBool_true (str : string) :
  fst (strconv_ParseBool str) = true <-> In str true_spellings.
Proof.
  unfold strconv_ParseBool, true_spellings.
  destruct (existsb (String.eqb str) ["1"; "t"; "T"; "true"; "TRUE"; "True"])
    eqn:E.
  - split; [intros _ | reflexivity].
    apply existsb_exists in E. destruct E as [x [Hin Hx]].
    apply String.eqb_eq in Hx. subst x. exact Hin.
  - assert (N : ~ In str ["1"; "t"; "T"; "true"; "TRUE"; "True"]).
    { intros Hin.
      assert (T : existsb (String.eqb str)
                    ["1"; "t"; "T"; "true"; "TRUE"; "True"] = true).
      { apply existsb_exists. exists str. split; [exact Hin |].
        apply String.eqb_refl. }
      congruence. }
    destruct (existsb (String.eqb str)
                ["0"; "f"; "F"; "false"; "FALSE"; "False"]); cbn;
      split; intros H; try discriminate H; contradiction.
Qed.

Lemma ParseBool_error_is_false (str : string) :
  snd (strconv_ParseBool str) <> None -> fst (strconv_ParseBool str) = false.
Proof.
  unfold strconv_ParseBool.
  destruct (existsb _ ["1"; "t"; "T"; "true"; "TRUE"; "True"]);
    [cbn; congruence |].
  destruct (existsb _ _); reflexivity.
Qed.

Lemma fold_apply_Option_debug (options : list Consolidated.Option)
    (st : Consolidated.Client) :
  Consolidated.debug (fold_left Consolidated.apply_Option options st)
    = match supplied_debug options with
      | Some b => b
      | None => Consolidated.debug st
      end.
Proof.
  revert st. induction options as [| o rest IH]; intros st; cbn.
  - reflexivity.
  - rewrite IH. destruct (supplied_debug rest); [reflexivity |].
    destruct o; reflexivity.
Qed.

(** X1: A client in debug mode never has the logger that drops everything:
    both constructors put the trace logger in its place, whatever the
    options and the process environment are. *)
Theorem New_debug_client_has_a_logger :
  forall (proc : Process) (tok : string)
         (options : list Consolidated.Option)
         (hoptions : list PerLevel.Option),
    (Consolidated.debug (Consolidated.New proc tok options) = true ->
     Consolidated.logger (Consolidated.New proc tok options) <> nilLogger)
    /\ (PerLevel.debug (PerLevel.debugClient (PerLevel.New proc tok hoptions))
          = true ->
        PerLevel.logger (PerLevel.debugClient (PerLevel.New proc tok hoptions))
          <> nilLogger).
Proof.
  intros proc tok options hoptions. split.
  - unfold Consolidated.New. cbn zeta.
    cbn [Consolidated.debug Consolidated.logger].
    destruct (Consolidated.logger (fold_left _ options _)); try discriminate.
    intros ->. discriminate.
  - unfold PerLevel.New. cbn zeta. cbn [PerLevel.debugClient].
    match goal with
    | |- context [fold_left ?f hoptions ?a] => set (cl := fold_left f hoptions a)
    end.
    destruct (PerLevel.logger cl) eqn:Hl; [destruct (PerLevel.debug cl) eqn:Hd |..];
      destruct (String.eqb _ ""); cbn; rewrite ?Hl, ?Hd; congruence.
Qed.

Lemma New_debug_client_has_a_logger_witness :
  Consolidated.logger
    (Consolidated.New (demo_proc "true") "tok"
       [Consolidated.keyLogger nilLogger]) <> nilLogger
  /\ PerLevel.logger
       (PerLevel.debugClient
          (PerLevel.New (demo_proc "0") "tok"
             [PerLevel.set_logger nilLogger; PerLevel.set_debug true]))
     <> nilLogger.
Proof.
  split.
  - apply (New_debug_client_has_a_logger (demo_proc "true") "tok"
             [Consolidated.keyLogger nilLogger] []).
    reflexivity.
  - apply (New_debug_client_has_a_logger (demo_proc "0") "tok" []
             [PerLevel.set_logger nilLogger; PerLevel.set_debug true]).
    reflexivity.
Defined.

(** X2: The debug flag of the consolidated client: the last [keyDebug] option
    decides it, over the process environment; without such an option the
    client is in debug mode exactly when ROLLBAR_DEBUG is one of the
    spellings of true, and an unset or unparsable value leaves it off. *)
Theorem Consolidated_New_debug_flag :
  forall (proc : Process) (tok : string)
         (options : list Consolidated.Option),
    (forall b : bool,
       supplied_debug options = Some b ->
       Consolidated.debug (Consolidated.New proc tok options) = b)
    /\ (supplied_debug options = None ->
        (Consolidated.debug (Consolidated.New proc tok options) = true
         <-> In (os_Getenv proc "ROLLBAR_DEBUG") true_spellings)).
Proof.
  intros proc tok options.
  assert (H : Consolidated.debug (Consolidated.New proc tok options)
              = match supplied_debug options with
                | Some b => b
                | None => fst (strconv_ParseBool (os_Getenv proc "ROLLBAR_DEBUG"))
                end).
  { unfold Consolidated.New. cbn zeta. cbn [Consolidated.debug].
    rewrite fold_apply_Option_debug. reflexivity. }
  rewrite H. split.
  - intros b ->. reflexivity.
  - intros ->. apply ParseBool_true.
Qed.

Lemma Consolidated_New_debug_flag_witness :
  Consolidated.debug
    (Consolidated.New (demo_proc "TRUE") "tok"
       [Consolidated.keyDebug true; Consolidated.keyEndpoint "http://x";
        Consolidated.keyDebug false]) = false
  /\ Consolidated.debug
       (Consolidated.New (demo_proc "T") "tok" [Consolidated.keyPlatform "go"])
     = true
  /\ Consolidated.debug
       (Consolidated.New (demo_proc "yes") "tok" [Consolidated.keyPlatform "go"])
     <> true.
Proof.
  split; [| split].
  - apply (Consolidated_New_debug_flag (demo_proc "TRUE") "tok"
             [Consolidated.keyDebug true; Consolidated.keyEndpoint "http://x";
              Consolidated.keyDebug false]).
    reflexivity.
  - apply (Consolidated_New_debug_flag (demo_proc "T") "tok"
             [Consolidated.keyPlatform "go"]); [reflexivity |].
    cbn. auto.
  - intros H.
    apply (Consolidated_New_debug_flag (demo_proc "yes") "tok"
             [Consolidated.keyPlatform "go"]) in H; [| reflexivity].
    cbn in H. repeat (destruct H as [H | H]; [discriminate H |]). exact H.
Defined.

(** X3: The per-level constructor: the environment variable can only switch
    debug mode on, and the options run after it; with options that leave
    the flag alone the client is in debug mode exactly when ROLLBAR_DEBUG
    is a spelling of true.  The five level clients are one and the same
    client. *)
Theorem PerLevel_New_debug_flag :
  forall (proc : Process) (tok : string) (hoptions : list PerLevel.Option),
    (forall o, In o hoptions -> forall cl, PerLevel.debug (o cl) = PerLevel.debug cl) ->
    (PerLevel.debug (PerLevel.debugClient (PerLevel.New proc tok hoptions)) = true
     <-> In (os_Getenv proc "ROLLBAR_DEBUG") true_spellings)
    /\ PerLevel.infoClient (PerLevel.New proc tok hoptions)
       = PerLevel.debugClient (PerLevel.New proc tok hoptions)
    /\ PerLevel.errorClient (PerLevel.New proc tok hoptions)
       = PerLevel.debugClient (PerLevel.New proc tok hoptions)
    /\ PerLevel.warnClient (PerLevel.New proc tok hoptions)
       = PerLevel.debugClient (PerLevel.New proc tok hoptions)
    /\ PerLevel.criticalClient (PerLevel.New proc tok hoptions)
       = PerLevel.debugClient (PerLevel.New proc tok hoptions).
Proof.
  intros proc tok hoptions Hkeep.
  split; [| repeat split].
  assert (Hfold : forall l cl,
            (forall o, In o l -> forall cl, PerLevel.debug (o cl) = PerLevel.debug cl) ->
            PerLevel.debug (fold_left (fun cl o => o cl) l cl) = PerLevel.debug cl).
  { induction l as [| o l IH]; intros cl Hl; cbn; [reflexivity |].
    rewrite IH by (intros o' Ho'; apply Hl; right; exact Ho').
    apply Hl. left. reflexivity. }
  assert (H : PerLevel.debug (PerLevel.debugClient (PerLevel.New proc tok hoptions))
              = fst (strconv_ParseBool (os_Getenv proc "ROLLBAR_DEBUG"))).
  { unfold PerLevel.New. cbn zeta. cbn [PerLevel.debugClient].
    match goal with
    | |- context [fold_left ?f hoptions ?a] =>
        pose proof (Hfold hoptions a Hkeep) as Hd;
        set (cl := fold_left f hoptions a) in *
    end.
    assert (Hfix : forall c : PerLevel.httpClient,
              PerLevel.debug
                (if String.eqb (PerLevel.serverHost
                      match PerLevel.logger c with
                      | nilLogger =>
                          if PerLevel.debug c
                          then PerLevel.set_logger traceLogger c else c
                      | _ => c
                      end) ""
                 then PerLevel.set_serverHost (fst (os_Hostname proc))
                        match PerLevel.logger c with
                        | nilLogger =>
                            if PerLevel.debug c
                            then PerLevel.set_logger traceLogger c else c
                        | _ => c
                        end
                 else match PerLevel.logger c with
                      | nilLogger =>
                          if PerLevel.debug c
                          then PerLevel.set_logger traceLogger c else c
                      | _ => c
                      end)
              = PerLevel.debug c).
    { intros [t hc u d l e pf cv sh sr sb sk]. cbn.
      destruct l; destruct d; cbn; destruct (String.eqb sh ""); reflexivity. }
    rewrite Hfix, Hd.
    pose proof (ParseBool_error_is_false (os_Getenv proc "ROLLBAR_DEBUG")) as He.
    destruct (strconv_ParseBool (os_Getenv proc "ROLLBAR_DEBUG")) as [d [e |]];
      cbn [fst snd] in *.
    - rewrite He by discriminate. reflexivity.
    - destruct d; reflexivity. }
  rewrite H. apply ParseBool_true.
Qed.

Lemma PerLevel_New_debug_flag_witness :
  PerLevel.debug
    (PerLevel.debugClient
       (PerLevel.New (demo_proc "1") "tok" [PerLevel.set_logger (customLogger 7)]))
    = true.
Proof.
  apply (PerLevel_New_debug_flag (demo_proc "1") "tok"
           [PerLevel.set_logger (customLogger 7)]).
  - intros o [<- | []] cl. reflexivity.
  - cbn. auto.
Defined.

(** X4: Fallbacks of the constructors.  The consolidated [New] fills an empty
    platform with the name of the operating system and an empty server
    host with the host name, also when an option asked for the empty
    string; its token is the one given.  The per-level [New] does the same
    for the server host, but keeps a platform that an option has emptied. *)
Theorem New_fallbacks :
  forall (proc : Process) (tok : string)
         (options : list Consolidated.Option)
         (hoptions : list PerLevel.Option),
    runtime_GOOS proc <> "" ->
    fst (os_Hostname proc) <> "" ->
    Consolidated.token (Consolidated.New proc tok options) = tok
    /\ Consolidated.platform (Consolidated.New proc tok options) <> ""
    /\ Consolidated.serverHost (Consolidated.New proc tok options) <> ""
    /\ Consolidated.platform
         (Consolidated.New proc tok (options ++ [Consolidated.keyPlatform ""]))
       = runtime_GOOS proc
    /\ Consolidated.serverHost
         (Consolidated.New proc tok (options ++ [Consolidated.keyServerHost ""]))
       = fst (os_Hostname proc)
    /\ PerLevel.serverHost (PerLevel.debugClient (PerLevel.New proc tok hoptions))
       <> ""
    /\ PerLevel.platform
         (PerLevel.debugClient
            (PerLevel.New proc tok (hoptions ++ [PerLevel_set_platform ""])))
       = "".
Proof.
  intros proc tok options hoptions Hos Hhost.
  repeat split.
  - unfold Consolidated.New. cbn zeta. cbn [Consolidated.platform].
    destruct (String.eqb _ "") eqn:E; [exact Hos |].
    apply String.eqb_neq. exact E.
  - unfold Consolidated.New. cbn zeta. cbn [Consolidated.serverHost].
    destruct (String.eqb _ "") eqn:E; [exact Hhost |].
    apply String.eqb_neq. exact E.
  - unfold Consolidated.New. rewrite fold_left_app. reflexivity.
  - unfold Consolidated.New. rewrite fold_left_app. reflexivity.
  - unfold PerLevel.New. cbn zeta. cbn [PerLevel.debugClient].
    match goal with
    | |- context [fold_left ?f hoptions ?a] => set (cl := fold_left f hoptions a)
    end.
    match goal with
    | |- context [String.eqb (PerLevel.serverHost ?c) ""] =>
        destruct (String.eqb (PerLevel.serverHost c) "") eqn:E
    end.
    + exact Hhost.
    + apply String.eqb_neq. exact E.
  - unfold PerLevel.New. cbn zeta. cbn [PerLevel.debugClient].
    rewrite !fold_left_app. cbn [fold_left]. unfold PerLevel.Option.
    match goal with
    | |- context [fold_left ?f hoptions ?a] => generalize (fold_left f hoptions a)
    end.
    intros [t hc u d l e pf cv sh sr sb sk].
    destruct l; destruct d; destruct sh; reflexivity.
Qed.

Lemma New_fallbacks_witness :
  Consolidated.platform
    (Consolidated.New (demo_proc "") "tok" [Consolidated.keyPlatform ""])
    = "linux"
  /\ Consolidated.serverHost
       (Consolidated.New (demo_proc "") "tok" [Consolidated.keyServerHost ""])
     = "build-host"
  /\ PerLevel.platform
       (PerLevel.debugClient
          (PerLevel.New (demo_proc "") "tok" [PerLevel_set_platform ""]))
     = "".
Proof.
  destruct (New_fallbacks (demo_proc "") "tok" [] [])
    as [_ [_ [_ [H4 [H5 [_ H7]]]]]]; try discriminate.
  split; [exact H4 |]. split; [exact H5 | exact H7].
Defined.

Lemma fold_apply_Option_fields (options : list Consolidated.Option)
    (st : Consolidated.Client) :
  Consolidated.client (fold_left Consolidated.apply_Option options st)
    = or_default (Consolidated.client st) (last_option pick_HTTPClient options)
  /\ Consolidated.endpoint (fold_left Consolidated.apply_Option options st)
     = or_default (Consolidated.endpoint st) (last_option pick_Endpoint options)
  /\ Consolidated.logger (fold_left Consolidated.apply_Option options st)
     = or_default (Consolidated.logger st) (last_option pick_Logger options)
  /\ Consolidated.environment (fold_left Consolidated.apply_Option options st)
     = or_default (Consolidated.environment st)
         (last_option pick_Environment options)
  /\ Consolidated.codeVersion (fold_left Consolidated.apply_Option options st)
     = or_default (Consolidated.codeVersion st)
         (last_option pick_CodeVersion options)
  /\ Consolidated.serverRoot (fold_left Consolidated.apply_Option options st)
     = or_default (Consolidated.serverRoot st)
         (last_option pick_ServerRoot options).
Proof.
  revert st. induction options as [| o rest IH]; intros st; cbn.
  - repeat split.
  - destruct (IH (Consolidated.apply_Option st o))
      as [H1 [H2 [H3 [H4 [H5 H6]]]]].
    rewrite H1, H2, H3, H4, H5, H6.
    destruct (last_option pick_HTTPClient rest),
             (last_option pick_Endpoint rest),
             (last_option pick_Logger rest),
             (last_option pick_Environment rest),
             (last_option pick_CodeVersion rest),
             (last_option pick_ServerRoot rest);
      destruct o; repeat split.
Qed.

Lemma fold_apply_Option_unknown (options : list Consolidated.Option)
    (st : Consolidated.Client) :
  fold_left Consolidated.apply_Option
    (filter (fun o => negb (is_keyUnknown o)) options) st
    = fold_left Consolidated.apply_Option options st.
Proof.
  revert st. induction options as [| o rest IH]; intros st; cbn.
  - reflexivity.
  - destruct o; cbn; apply IH.
Qed.

(** X5: Options of the consolidated [New] are applied in order.  HTTP
    client, endpoint, environment, code version and server root are each
    the value of the last option under their key, wherever it stands in
    the list, and the default when there is none.  The logger is the one
    of the last logger option, the no-op logger when there is none, except
    that the no-op logger is replaced by the trace logger when the debug
    flag is set.  Options under keys that [New] does not know are ignored
    wherever they stand. *)
Theorem Consolidated_New_last_option_wins :
  forall (proc : Process) (tok : string)
         (options : list Consolidated.Option),
    Consolidated.client (Consolidated.New proc tok options)
      = or_default (http_DefaultClient proc)
          (last_option pick_HTTPClient options)
    /\ Consolidated.endpoint (Consolidated.New proc tok options)
       = or_default (api_DefaultEndpoint proc)
           (last_option pick_Endpoint options)
    /\ Consolidated.environment (Consolidated.New proc tok options)
       = or_default "development" (last_option pick_Environment options)
    /\ Consolidated.codeVersion (Consolidated.New proc tok options)
       = or_default "" (last_option pick_CodeVersion options)
    /\ Consolidated.serverRoot (Consolidated.New proc tok options)
       = or_default "" (last_option pick_ServerRoot options)
    /\ Consolidated.logger (Consolidated.New proc tok options)
       = match or_default nilLogger (last_option pick_Logger options) with
         | nilLogger =>
             if Consolidated.debug (Consolidated.New proc tok options)
             then traceLogger else nilLogger
         | l => l
         end
    /\ Consolidated.New proc tok
         (filter (fun o => negb (is_keyUnknown o)) options)
       = Consolidated.New proc tok options.
Proof.
  intros proc tok options.
  unfold Consolidated.New. cbn zeta.
  cbn [Consolidated.client Consolidated.endpoint Consolidated.environment
       Consolidated.codeVersion Consolidated.serverRoot Consolidated.logger
       Consolidated.debug].
  rewrite fold_apply_Option_unknown.
  match goal with
  | |- context [fold_left Consolidated.apply_Option options ?st] =>
      destruct (fold_apply_Option_fields options st)
        as [H1 [H2 [H3 [H4 [H5 H6]]]]]
  end.
  rewrite H1, H2, H3, H4, H5, H6. cbn.
  repeat split.
Qed.

(** * Building the request *)

Lemma find_filter_weaker {A : Type} (p q : A -> bool) (l : list A) :
  (forall x, p x = true -> q x = true) ->
  find p (filter q l) = find p l.
Proof.
  intros Hpq. induction l as [| x l IH]; cbn; [reflexivity |].
  destruct (q x) eqn:Q; cbn.
  - rewrite IH. reflexivity.
  - destruct (p x) eqn:P; [| exact IH].
    apply Hpq in P. congruence.
Qed.

Lemma filter_filter_disjoint {A : Type} (p q : A -> bool) (l : list A) :
  (forall x, p x = true -> q x = false) ->
  filter p (filter q l) = [].
Proof.
  intros Hpq. induction l as [| x l IH]; cbn; [reflexivity |].
  destruct (q x) eqn:Q; cbn; [| exact IH].
  destruct (p x) eqn:P; [| exact IH].
  apply Hpq in P. congruence.
Qed.

Lemma filter_filter_weaker {A : Type} (p q : A -> bool) (l : list A) :
  (forall x, p x = true -> q x = true) ->
  filter p (filter q l) = filter p l.
Proof.
  intros Hpq. induction l as [| x l IH]; cbn; [reflexivity |].
  destruct (q x) eqn:Q; cbn.
  - rewrite IH. reflexivity.
  - destruct (p x) eqn:P; [| exact IH].
    apply Hpq in P. congruence.
Qed.

Lemma header_Get_Set_same (key value : string) (req : Request) :
  header_Get key (Header_Set key value req) = Some value.
Proof.
  unfold header_Get, Header_Set. cbn. rewrite String.eqb_refl. reflexivity.
Qed.

Lemma header_Get_Set_other (key key' value : string) (req : Request) :
  key <> key' ->
  header_Get key (Header_Set key' value req) = header_Get key req.
Proof.
  intros Hne. unfold header_Get, Header_Set. cbn.
  assert (E : String.eqb key' key = false).
  { apply String.eqb_neq. congruence. }
  rewrite E. rewrite find_filter_weaker; [reflexivity |].
  intros [k v] Hk. cbn in *. apply String.eqb_eq in Hk. subst k.
  apply String.eqb_neq in Hne. rewrite Hne. reflexivity.
Qed.

Lemma header_count_Set_same (key value : string) (req : Request) :
  header_count key (Header_Set key value req) = 1%nat.
Proof.
  unfold header_count, Header_Set. cbn. rewrite String.eqb_refl. cbn.
  rewrite filter_filter_disjoint; [reflexivity |].
  intros [k v] Hk. cbn in *. rewrite Hk. reflexivity.
Qed.

Lemma header_count_Set_other (key key' value : string) (req : Request) :
  key <> key' ->
  header_count key (Header_Set key' value req) = header_count key req.
Proof.
  intros Hne. unfold header_count, Header_Set. cbn.
  assert (E : String.eqb key' key = false).
  { apply String.eqb_neq. congruence. }
  rewrite E. rewrite filter_filter_weaker; [reflexivity |].
  intros [k v] Hk. cbn in *. apply String.eqb_eq in Hk. subst k.
  apply String.eqb_neq in Hne. rewrite Hne. reflexivity.
Qed.

Lemma newRequest_ok_inv (env : Env) (c : PerLevel.httpClient)
    (p : api.Payload) (r : Request) :
  PerLevel.newRequest env c p = ok r ->
  PerLevel.token c <> ""
  /\ exists (data : bytes) (req : Request),
       json_Marshal env p = ok data
       /\ http_NewRequest env http_MethodPost (PerLevel.endpoint c) data
            = ok req
       /\ r = Header_Set "User-Agent" (UserAgent env)
                (Header_Set "Content-Type" "application/json" req).
Proof.
  unfold PerLevel.newRequest.
  destruct (String.eqb (PerLevel.token c) "") eqn:E; [discriminate |].
  apply String.eqb_neq in E.
  destruct (json_Marshal env p) as [data | e] eqn:Hm; [| discriminate].
  destruct (http_NewRequest env http_MethodPost (PerLevel.endpoint c) data)
    as [req | e] eqn:Hr; [| discriminate].
  intros H. injection H as <-. split; [exact E |].
  exists data, req. repeat split; assumption.
Qed.

(** X6: [newRequest] succeeds exactly when the token is not empty, the payload
    serializes and the request constructor accepts the endpoint; the
    request it returns is then the constructor's with the two headers
    set. *)
Theorem newRequest_succeeds_iff :
  forall (env : Env) (c : PerLevel.httpClient) (p : api.Payload)
         (r : Request),
    PerLevel.newRequest env c p = ok r
    <-> PerLevel.token c <> ""
        /\ exists (data : bytes) (req : Request),
             json_Marshal env p = ok data
             /\ http_NewRequest env http_MethodPost (PerLevel.endpoint c) data
                  = ok req
             /\ r = Header_Set "User-Agent" (UserAgent env)
                      (Header_Set "Content-Type" "application/json" req).
Proof.
  intros env c p r. split.
  - apply newRequest_ok_inv.
  - intros [Htok [data [req [Hm [Hr ->]]]]]. unfold PerLevel.newRequest.
    apply String.eqb_neq in Htok. rewrite Htok, Hm, Hr. reflexivity.
Qed.

(** X7: A request made by [newRequest] carries the content type
    application/json and the library's user agent, each exactly once,
    whatever headers the request constructor had put; method, URL and body
    are the constructor's. *)
Theorem newRequest_headers :
  forall (env : Env) (c : PerLevel.httpClient) (p : api.Payload)
         (r : Request),
    PerLevel.newRequest env c p = ok r ->
    header_Get "Content-Type" r = Some "application/json"
    /\ header_Get "User-Agent" r = Some (UserAgent env)
    /\ header_count "Content-Type" r = 1%nat
    /\ header_count "User-Agent" r = 1%nat
    /\ exists (data : bytes) (req : Request),
         json_Marshal env p = ok data
         /\ http_NewRequest env http_MethodPost (PerLevel.endpoint c) data
              = ok req
         /\ req_method r = req_method req
         /\ req_url r = req_url req
         /\ req_body r = req_body req.
Proof.
  intros env c p r H.
  apply newRequest_ok_inv in H.
  destruct H as [_ [data [req [Hm [Hr ->]]]]].
  split; [| split; [| split; [| split]]].
  - rewrite header_Get_Set_other by discriminate.
    apply header_Get_Set_same.
  - apply header_Get_Set_same.
  - rewrite header_count_Set_other by discriminate.
    apply header_count_Set_same.
  - apply header_count_Set_same.
  - exists data, req. repeat split; assumption.
Qed.

Lemma newRequest_headers_witness :
  header_Get "Content-Type"
    (Header_Set "User-Agent" "go-rollbar/0.0.0"
       (Header_Set "Content-Type" "application/json"
          (mkRequest "POST" "https://api.rollbar.com/api/1/item/" []
             ("{" ++ quoted "access_token" ++ ":" ++ quoted "tok" ++ "}"))))
    = Some "application/json".
Proof.
  apply (newRequest_headers env_X (demo_httpClient "tok" false)
           (PerLevel.payload demo_digest env_X (demo_httpClient "tok" false)
              ErrorLevel None)).
  reflexivity.
Defined.

(** * What one call records *)

Lemma skipn_length_app {A : Type} (l l' : list A) :
  skipn (length l) (l ++ l')%list = l'.
Proof. induction l as [| x l IH]; cbn; [reflexivity | exact IH]. Qed.

Lemma added_since_extends (w w' : World) (l : list Event) :
  trace w' = (trace w ++ l)%list -> added_since w w' = l.
Proof. intros H. unfold added_since. rewrite H. apply skipn_length_app. Qed.

Ltac split_scrutinee :=
  match goal with
  | |- context [match json_Marshal ?e ?p with _ => _ end] =>
      destruct (json_Marshal e p) eqn:?
  | |- context [match http_NewRequest ?e ?m ?u ?d with _ => _ end] =>
      destruct (http_NewRequest e m u d) eqn:?
  | |- context [match ctxhttp_Do ?e ?t ?c ?n ?r with _ => _ end] =>
      destruct (ctxhttp_Do e t c n r) eqn:?
  | |- context [match json_Unmarshal_Response ?e ?b with _ => _ end] =>
      destruct (json_Unmarshal_Response e b) eqn:?
  | |- context [match json_Unmarshal_map ?e ?b with _ => _ end] =>
      destruct (json_Unmarshal_map e b) eqn:?
  | |- context [match json_Decode_interface ?e ?b with _ => _ end] =>
      destruct (json_Decode_interface e b) eqn:?
  | |- context [if negb (Z.eqb ?a ?b) then _ else _] =>
      destruct (Z.eqb a b) eqn:?
  end.

(** Closes a goal about an explicit list of added events. *)
Ltac tally :=
  repeat split;
  try (intros; discriminate);
  try (cbn; lia);
  try (intros; cbn; lia);
  try (unfold logs_only_to; repeat constructor; cbn; intros; auto; discriminate).

(** What the consolidated [post] adds to the world, in every case. *)
Lemma post_world (env : Env) (c : Consolidated.Client) (pctx : Context)
    (level : Level) (err : option error) (options : list ErrorOption)
    (w : World) :
  exists l : list Event,
    trace (snd (run (Consolidated.post env c pctx level err options) w))
      = (trace w ++ l)%list
    /\ (uuids_drawn w
          <= uuids_drawn
               (snd (run (Consolidated.post env c pctx level err options) w))
          <= S (uuids_drawn w))%nat
    /\ (count is_send l <= 1)%nat
    /\ count is_cancel l = count is_send l
    /\ (count is_close l <= count is_send l)%nat
    /\ count is_drain l = 0%nat
    /\ (Consolidated.debug c = false -> count is_log l = 0%nat)
    /\ logs_only_to (Consolidated.logger c) pctx l
    /\ (fst (run (Consolidated.post env c pctx level err options) w) = None ->
        count is_send l = 1%nat /\ count is_close l = 1%nat).
Proof.
  unfold Consolidated.post.
  destruct (String.eqb (Consolidated.token c) "") eqn:Htok.
  - exists []. rewrite app_nil_r. cbn. tally.
  - rewrite run_bind, payload_run. cbn zeta.
    destruct c as [tok cl ep dbg lg envr pf cv sh sr].
    unfold run.
    destruct (supplied_id options) as [[| a s] |]; destruct dbg;
      cbn -[fresh_id];
      repeat (split_scrutinee; cbn -[fresh_id]);
      unfold Consolidated.Decode; cbn -[fresh_id];
      repeat (split_scrutinee; cbn -[fresh_id]);
      rewrite <- ?app_assoc; cbn [app];
      (eexists; split; [reflexivity || (rewrite app_nil_r; reflexivity) |]);
      tally.
Qed.

(** X8: One call of the consolidated [post] makes at most one request; it
    never rewrites what was recorded before; it cancels the derived
    context once for each request it sends and closes no more bodies than
    it sends requests; and when [post] returns nil exactly one request
    was sent and one body was closed.  At most one UUID is drawn. *)
Theorem post_single_attempt :
  forall (env : Env) (c : Consolidated.Client) (pctx : Context)
         (level : Level) (err : option error) (options : list ErrorOption)
         (w : World),
    trace (snd (run (Consolidated.post env c pctx level err options) w))
      = (trace w
         ++ added_since w
              (snd (run (Consolidated.post env c pctx level err options) w)))%list
    /\ (count is_send
          (added_since w
             (snd (run (Consolidated.post env c pctx level err options) w)))
        <= 1)%nat
    /\ count is_cancel
         (added_since w
            (snd (run (Consolidated.post env c pctx level err options) w)))
       = count is_send
           (added_since w
              (snd (run (Consolidated.post env c pctx level err options) w)))
    /\ (count is_close
          (added_since w
             (snd (run (Consolidated.post env c pctx level err options) w)))
        <= count is_send
             (added_since w
                (snd (run (Consolidated.post env c pctx level err options) w))))%nat
    /\ (fst (run (Consolidated.post env c pctx level err options) w) = None ->
        count is_send
          (added_since w
             (snd (run (Consolidated.post env c pctx level err options) w)))
        = 1%nat
        /\ count is_close
             (added_since w
                (snd (run (Consolidated.post env c pctx level err options) w)))
           = 1%nat)
    /\ (uuids_drawn w
        <= uuids_drawn
             (snd (run (Consolidated.post env c pctx level err options) w))
        <= S (uuids_drawn w))%nat.
Proof.
  intros env c pctx level err options w.
  destruct (post_world env c pctx level err options w)
    as [l [Ht [Hu [Hs [Hc [Hcl [_ [_ [_ Hok]]]]]]]]].
  rewrite (added_since_extends _ _ l Ht).
  repeat split; try assumption; try apply Hok; try apply Hu; assumption.
Qed.

Lemma post_single_attempt_witness :
  count is_send
    (added_since w0
       (snd (run (Consolidated.post env_X (demo_client "tok" true)
                    (context_value 1) ErrorLevel None []) w0)))
    = 1%nat
  /\ count is_close
       (added_since w0
          (snd (run (Consolidated.post env_X (demo_client "tok" true)
                       (context_value 1) ErrorLevel None []) w0)))
     = 1%nat.
Proof.
  apply (post_single_attempt env_X (demo_client "tok" true) (context_value 1)
           ErrorLevel None [] w0).
  reflexivity.
Defined.

(** X9: The consolidated [post] logs only in debug mode, and then only on the
    client's own logger and with the context of its caller. *)
Theorem post_logging_discipline :
  forall (env : Env) (c : Consolidated.Client) (pctx : Context)
         (level : Level) (err : option error) (options : list ErrorOption)
         (w : World),
    logs_only_to (Consolidated.logger c) pctx
      (added_since w
         (snd (run (Consolidated.post env c pctx level err options) w)))
    /\ (Consolidated.debug c = false ->
        count is_log
          (added_since w
             (snd (run (Consolidated.post env c pctx level err options) w)))
        = 0%nat).
Proof.
  intros env c pctx level err options w.
  destruct (post_world env c pctx level err options w)
    as [l [Ht [_ [_ [_ [_ [_ [Hq [Hl _]]]]]]]]].
  rewrite (added_since_extends _ _ l Ht). split; assumption.
Qed.

Lemma post_logging_discipline_witness :
  count is_log
    (added_since w0
       (snd (run (Consolidated.post env_X (demo_client "tok" false)
                    (context_value 1) ErrorLevel None []) w0)))
    = 0%nat.
Proof.
  apply (post_logging_discipline env_X (demo_client "tok" false)
           (context_value 1) ErrorLevel None [] w0).
  reflexivity.
Defined.

(** ** Failures before anything is sent *)

Lemma post_run_marshal_failed (env : Env) (c : Consolidated.Client)
    (pctx : Context) (level : Level) (err : option error)
    (options : list ErrorOption) (w w1 : World) (p : api.Payload)
    (e : error) :
  Consolidated.token c <> "" ->
  run (Consolidated.payload env c level err options) w = (p, w1) ->
  json_Marshal env p = failed e ->
  run (Consolidated.post env c pctx level err options) w
    = (Some (errors_Wrap e "failed to encode payload"), w1).
Proof.
  intros Htok Hp Hm. unfold Consolidated.post.
  apply String.eqb_neq in Htok. rewrite Htok.
  rewrite run_bind, Hp. cbn [fst snd]. rewrite Hm. reflexivity.
Qed.

Lemma post_run_request_failed (env : Env) (c : Consolidated.Client)
    (pctx : Context) (level : Level) (err : option error)
    (options : list ErrorOption) (w w1 : World) (p : api.Payload)
    (data : bytes) (e : error) :
  Consolidated.token c <> "" ->
  run (Consolidated.payload env c level err options) w = (p, w1) ->
  json_Marshal env p = ok data ->
  http_NewRequest env http_MethodPost (Consolidated.endpoint c) data
    = failed e ->
  run (Consolidated.post env c pctx level err options) w
    = (Some (errors_New "failed to create new POST request"),
       before_send env c pctx p w1).
Proof.
  intros Htok Hp Hm Hr. unfold Consolidated.post.
  apply String.eqb_neq in Htok. rewrite Htok.
  rewrite run_bind, Hp. cbn [fst snd]. rewrite Hm.
  rewrite run_bind. unfold before_send.
  destruct (Consolidated.debug c); cbn; rewrite Hr; reflexivity.
Qed.

Lemma payload_world (env : Env) (c : Consolidated.Client) (level : Level)
    (err : option error) (options : list ErrorOption) (w : World) :
  trace (snd (run (Consolidated.payload env c level err options) w)) = trace w
  /\ (uuids_drawn w
      <= uuids_drawn (snd (run (Consolidated.payload env c level err options) w))
      <= S (uuids_drawn w))%nat.
Proof.
  rewrite payload_run. cbn zeta.
  destruct (supplied_id options) as [[| a s] |]; cbn; split; try reflexivity; lia.
Qed.

(** X10: When the payload cannot be serialized the consolidated [post] returns
    the serializer's error wrapped as "failed to encode payload" and
    records nothing.  When the request cannot be constructed it returns
    the fixed error "failed to create new POST request", whatever the
    constructor's error was, and no request is sent; [newRequest] of the
    per-level client wraps both errors and so keeps them as the cause. *)
Theorem failures_before_sending :
  forall (env : Env) (c : Consolidated.Client) (hc : PerLevel.httpClient)
         (pctx : Context) (level : Level) (err : option error)
         (options : list ErrorOption) (w : World) (hp : api.Payload)
         (e : error),
    Consolidated.token c <> "" ->
    PerLevel.token hc <> "" ->
    (json_Marshal env
       (fst (run (Consolidated.payload env c level err options) w)) = failed e ->
     fst (run (Consolidated.post env c pctx level err options) w)
       = Some (errors_Wrap e "failed to encode payload")
     /\ trace (snd (run (Consolidated.post env c pctx level err options) w))
        = trace w)
    /\ (forall data : bytes,
          json_Marshal env
            (fst (run (Consolidated.payload env c level err options) w))
            = ok data ->
          http_NewRequest env http_MethodPost (Consolidated.endpoint c) data
            = failed e ->
          fst (run (Consolidated.post env c pctx level err options) w)
            = Some (errors_New "failed to create new POST request")
          /\ count is_send
               (added_since w
                  (snd (run (Consolidated.post env c pctx level err options) w)))
             = 0%nat)
    /\ (json_Marshal env hp = failed e ->
        PerLevel.newRequest env hc hp
          = failed (errors_Wrap e "failed to encode payload"))
    /\ (forall data : bytes,
          json_Marshal env hp = ok data ->
          http_NewRequest env http_MethodPost (PerLevel.endpoint hc) data
            = failed e ->
          PerLevel.newRequest env hc hp
            = failed (errors_Wrap e "failed to create new POST request")
          /\ Cause (errors_Wrap e "failed to create new POST request")
             = Cause e).
Proof.
  intros env c hc pctx level err options w hp e Htok Hhtok.
  pose proof (payload_world env c level err options w) as [Htr _].
  destruct (run (Consolidated.payload env c level err options) w)
    as [p w1] eqn:Hp.
  cbn [fst snd] in *.
  split; [| split; [| split]].
  - intros Hm.
    rewrite (post_run_marshal_failed env c pctx level err options w w1 p e
               Htok Hp Hm).
    split; [reflexivity | exact Htr].
  - intros data Hm Hr.
    rewrite (post_run_request_failed env c pctx level err options w w1 p data e
               Htok Hp Hm Hr).
    cbn [fst snd]. split; [reflexivity |].
    unfold before_send.
    destruct (Consolidated.debug c); cbv iota.
    + rewrite (added_since_extends w _
                 [ev_Debug (Consolidated.logger c) pctx
                    (json_MarshalIndent_Payload env p) []]).
      * reflexivity.
      * cbn. rewrite Htr. reflexivity.
    + rewrite (added_since_extends w w1 []); [reflexivity |].
      rewrite app_nil_r. exact Htr.
  - intros Hm. unfold PerLevel.newRequest.
    apply String.eqb_neq in Hhtok. rewrite Hhtok, Hm. reflexivity.
  - intros data Hm Hr. unfold PerLevel.newRequest.
    apply String.eqb_neq in Hhtok. rewrite Hhtok, Hm, Hr.
    split; reflexivity.
Qed.

Lemma failures_before_sending_witness :
  (fst (run (Consolidated.post env_bad_marshal (demo_client "tok" true)
               (context_value 1) ErrorLevel None []) w0)
     = Some (errors_Wrap (foreign_error "json: unsupported value")
               "failed to encode payload")
   /\ trace (snd (run (Consolidated.post env_bad_marshal (demo_client "tok" true)
                        (context_value 1) ErrorLevel None []) w0))
      = trace w0)
  /\ (fst (run (Consolidated.post env_bad_url (demo_client "tok" true)
                  (context_value 1) ErrorLevel None []) w0)
        = Some (errors_New "failed to create new POST request")
      /\ PerLevel.newRequest env_bad_url (demo_httpClient "tok" true)
           (PerLevel.payload demo_digest env_bad_url
              (demo_httpClient "tok" true) ErrorLevel None)
         = failed (errors_Wrap (foreign_error "parse: missing protocol scheme")
                     "failed to create new POST request")).
Proof.
  split.
  - apply (failures_before_sending env_bad_marshal (demo_client "tok" true)
             (demo_httpClient "tok" true) (context_value 1) ErrorLevel None []
             w0
             (PerLevel.payload demo_digest env_bad_marshal
                (demo_httpClient "tok" true) ErrorLevel None)
             (foreign_error "json: unsupported value"));
      try discriminate; reflexivity.
  - destruct (failures_before_sending env_bad_url (demo_client "tok" true)
                (demo_httpClient "tok" true) (context_value 1) ErrorLevel None
                [] w0
                (PerLevel.payload demo_digest env_bad_url
                   (demo_httpClient "tok" true) ErrorLevel None)
                (foreign_error "parse: missing protocol scheme"))
      as [_ [H2 [_ H4]]]; try discriminate.
    split.
    + apply (H2 ("{" ++ quoted "access_token" ++ ":" ++ quoted "tok" ++ "}"));
        reflexivity.
    + apply (H4 ("{" ++ quoted "access_token" ++ ":" ++ quoted "tok" ++ "}"));
        reflexivity.
Defined.

(** * The severity-leveled methods, end to end *)

(** What a severity-leveled method adds to the world: the body shared by
    the five methods, for any level and format. *)
Lemma report_world (env : Env) (c : Consolidated.Client) (ctx : Context)
    (level : Level) (format : string) (err : option error)
    (options : list ErrorOption) (w : World) (m : M unit) :
  m = (r <- Consolidated.post env c ctx level err options ;;
       match r with
       | Some e => Consolidated.logger_Debug c ctx format [arg_error e]
       | None => ret tt
       end) ->
  exists l : list Event,
    trace (snd (run m w)) = (trace w ++ l)%list
    /\ (count is_send l <= 1)%nat
    /\ count is_cancel l = count is_send l
    /\ logs_only_to (Consolidated.logger c) ctx l
    /\ (Consolidated.debug c = false ->
        count is_log l
        = match fst (run (Consolidated.post env c ctx level err options) w) with
          | Some _ => 1%nat
          | None => 0%nat
          end).
Proof.
  intros ->. rewrite run_bind.
  destruct (post_world env c ctx level err options w)
    as [l [Ht [_ [Hs [Hc [_ [_ [Hq [Hl _]]]]]]]]].
  destruct (run (Consolidated.post env c ctx level err options) w)
    as [[e |] w'] eqn:Hrun; cbn [fst snd] in *.
  - exists (l ++ [ev_Debug (Consolidated.logger c) ctx format [arg_error e]])%list.
    unfold count in *. rewrite !filter_app, !length_app. cbn.
    split; [rewrite Ht, app_assoc; reflexivity |].
    split; [lia |]. split; [lia |]. split.
    + unfold logs_only_to in *. apply Forall_app. split; [exact Hl |].
      repeat constructor.
    + intros Hd. rewrite (Hq Hd). reflexivity.
  - exists l. repeat split; assumption.
Qed.

(** X11: Through any of the five methods at most one request leaves the
    library, all logging goes to the client's logger with the caller's
    context, and a client that is not in debug mode logs nothing when the
    report went through and exactly one line when it failed. *)
Theorem report_methods_are_quiet :
  forall (env : Env) (c : Consolidated.Client) (ctx : Context)
         (err : option error) (options : list ErrorOption) (w : World)
         (method : Consolidated.Client -> Context -> option error ->
                   list ErrorOption -> M unit)
         (level : Level),
    In (method, level)
      [(Consolidated.Debug env, DebugLevel); (Consolidated.Info env, InfoLevel);
       (Consolidated.Warn env, WarnLevel); (Consolidated.Error env, ErrorLevel);
       (Consolidated.Critical env, CriticalLevel)] ->
    (count is_send (added_since w (snd (run (method c ctx err options) w)))
     <= 1)%nat
    /\ logs_only_to (Consolidated.logger c) ctx
         (added_since w (snd (run (method c ctx err options) w)))
    /\ (Consolidated.debug c = false ->
        count is_log (added_since w (snd (run (method c ctx err options) w)))
        = match fst (run (Consolidated.post env c ctx level err options) w) with
          | Some _ => 1%nat
          | None => 0%nat
          end).
Proof.
  intros env c ctx err options w method level Hin.
  assert (H : exists format,
            method c ctx err options
            = (r <- Consolidated.post env c ctx level err options ;;
               match r with
               | Some e => Consolidated.logger_Debug c ctx format [arg_error e]
               | None => ret tt
               end)).
  { cbn in Hin.
    repeat (destruct Hin as [Hin | Hin];
            [injection Hin as <- <-; eexists; reflexivity |]).
    contradiction. }
  destruct H as [format H].
  destruct (report_world env c ctx level format err options w _ H)
    as [l [Ht [Hs [_ [Hl Hq]]]]].
  rewrite (added_since_extends _ _ l Ht).
  repeat split; assumption.
Qed.

Lemma report_methods_are_quiet_witness :
  count is_log
    (added_since w0
       (snd (run (Consolidated.Warn env_X (demo_client "tok" false)
                    (context_value 1) None []) w0)))
    = 0%nat
  /\ count is_log
       (added_since w0
          (snd (run (Consolidated.Critical env_500 (demo_client "tok" false)
                       (context_value 1) None []) w0)))
     = 1%nat.
Proof.
  split.
  - apply (report_methods_are_quiet env_X (demo_client "tok" false)
             (context_value 1) None [] w0 (Consolidated.Warn env_X) WarnLevel);
      [cbn; auto | reflexivity].
  - apply (report_methods_are_quiet env_500 (demo_client "tok" false)
             (context_value 1) None [] w0 (Consolidated.Critical env_500)
             CriticalLevel);
      [cbn; auto 6 | reflexivity].
Defined.

(** X12: With an empty token each of the five methods sends nothing and leaves
    exactly one call on the client's logger, carrying the error "empty
    token" under the method's own name. *)
Theorem report_methods_with_empty_token :
  forall (env : Env) (c : Consolidated.Client) (ctx : Context)
         (err : option error) (options : list ErrorOption) (w : World),
    Consolidated.token c = "" ->
    run (Consolidated.Debug env c ctx err options) w
      = (tt, logged (ev_Debug (Consolidated.logger c) ctx "rollbar: Debug: %+v"
                       [arg_error (errors_New "empty token")]) w)
    /\ run (Consolidated.Info env c ctx err options) w
      = (tt, logged (ev_Debug (Consolidated.logger c) ctx "rollbar: Info: %+v"
                       [arg_error (errors_New "empty token")]) w)
    /\ run (Consolidated.Error env c ctx err options) w
      = (tt, logged (ev_Debug (Consolidated.logger c) ctx "rollbar: Error: %+v"
                       [arg_error (errors_New "empty token")]) w)
    /\ run (Consolidated.Warn env c ctx err options) w
      = (tt, logged (ev_Debug (Consolidated.logger c) ctx "rollbar: Warn: %+v"
                       [arg_error (errors_New "empty token")]) w)
    /\ run (Consolidated.Critical env c ctx err options) w
      = (tt, logged (ev_Debug (Consolidated.logger c) ctx
                       "rollbar: Critical: %+v"
                       [arg_error (errors_New "empty token")]) w).
Proof.
  intros env c ctx err options w Htok.
  unfold Consolidated.Debug, Consolidated.Info, Consolidated.Error,
    Consolidated.Warn, Consolidated.Critical, Consolidated.post.
  rewrite Htok. cbn. repeat split.
Qed.

Lemma report_methods_with_empty_token_witness :
  run (Consolidated.Warn env_X
         (Consolidated.New (demo_proc "") "" []) context_Background
         (Some (foreign_error "boom")) [keyUUID "abc"]) w0
    = (tt, mkWorld [ev_Debug nilLogger context_Background "rollbar: Warn: %+v"
                      [arg_error (errors_New "empty token")]] 0).
Proof.
  apply (report_methods_with_empty_token env_X
           (Consolidated.New (demo_proc "") "" []) context_Background
           (Some (foreign_error "boom")) [keyUUID "abc"] w0).
  reflexivity.
Defined.

(** * The per-level exchange, in full *)

(** X13: [Do] always hands exactly one request to the transport and never
    cancels anything; when the transport fails that is all it records and
    the caller's response value is untouched; when a response arrives, the
    last two things it does are to drain the body and to close it, whatever
    the status is and however decoding goes; and it logs only in debug
    mode, on the client's logger with the caller's context. *)
Theorem Do_exchange_discipline :
  forall (env : Env) (c : PerLevel.httpClient) (ctx : Context)
         (req : Request) (res : api.Response) (w : World),
    trace (snd (run (PerLevel.Do env c ctx req res) w))
      = (trace w
         ++ added_since w (snd (run (PerLevel.Do env c ctx req res) w)))%list
    /\ count is_send
         (added_since w (snd (run (PerLevel.Do env c ctx req res) w)))
       = 1%nat
    /\ count is_cancel
         (added_since w (snd (run (PerLevel.Do env c ctx req res) w)))
       = 0%nat
    /\ logs_only_to (PerLevel.logger c) ctx
         (added_since w (snd (run (PerLevel.Do env c ctx req res) w)))
    /\ (PerLevel.debug c = false ->
        count is_log
          (added_since w (snd (run (PerLevel.Do env c ctx req res) w)))
        = 0%nat)
    /\ match ctxhttp_Do env (trace w) ctx (PerLevel.client c) req with
       | Failed _ _ =>
           added_since w (snd (run (PerLevel.Do env c ctx req res) w))
             = [ev_send ctx req]
           /\ fst (fst (run (PerLevel.Do env c ctx req res) w)) = res
       | Responded _ =>
           exists before : list Event,
             added_since w (snd (run (PerLevel.Do env c ctx req res) w))
               = (ev_send ctx req :: before
                  ++ [ev_drain_body; ev_close_body])%list
             /\ count is_drain before = 0%nat
             /\ count is_close before = 0%nat
       end.
Proof.
  intros env c ctx req res w.
  assert (H : exists l,
            trace (snd (run (PerLevel.Do env c ctx req res) w))
              = (trace w ++ l)%list
            /\ count is_send l = 1%nat
            /\ count is_cancel l = 0%nat
            /\ logs_only_to (PerLevel.logger c) ctx l
            /\ (PerLevel.debug c = false -> count is_log l = 0%nat)
            /\ match ctxhttp_Do env (trace w) ctx (PerLevel.client c) req with
               | Failed _ _ =>
                   l = [ev_send ctx req]
                   /\ fst (fst (run (PerLevel.Do env c ctx req res) w)) = res
               | Responded _ =>
                   exists before : list Event,
                     l = (ev_send ctx req :: before
                          ++ [ev_drain_body; ev_close_body])%list
                     /\ count is_drain before = 0%nat
                     /\ count is_close before = 0%nat
               end).
  { unfold PerLevel.Do, PerLevel.parseResponse.
    destruct c as [tok cl ep dbg lg envr pf cv sh sr sb sk].
    unfold run. cbn.
    destruct (ctxhttp_Do env (trace w) ctx cl req) as [resp | e [cerr |]];
      destruct dbg; cbn;
      repeat (split_scrutinee; cbn);
      rewrite <- ?app_assoc; cbn [app];
      (eexists; split; [reflexivity |]);
      repeat (split; [solve [tally] |]);
      try solve [tally];
      first
        [ exists (@nil Event); split; [reflexivity | tally]
        | match goal with
          | |- exists _, (_ :: ?a :: ?b :: ?c :: _ :: _ :: nil) = _ /\ _ =>
              exists [a; b; c]; split; [reflexivity | tally]
          end ]. }
  destruct H as [l [Ht H]].
  rewrite (added_since_extends _ _ l Ht).
  split; [exact Ht | exact H].
Qed.

Lemma Do_exchange_discipline_witness :
  added_since w0
    (snd (run (PerLevel.Do env_refused (demo_httpClient "tok" true)
                 (context_value 1) demo_request empty_Response) w0))
    = [ev_send (context_value 1) demo_request]
  /\ count is_log
       (added_since w0
          (snd (run (PerLevel.Do env_X (demo_httpClient "tok" false)
                       (context_value 1) demo_request empty_Response) w0)))
     = 0%nat.
Proof.
  split.
  - apply (Do_exchange_discipline env_refused (demo_httpClient "tok" true)
             (context_value 1) demo_request empty_Response w0).
  - apply (Do_exchange_discipline env_X (demo_httpClient "tok" false)
             (context_value 1) demo_request empty_Response w0).
    reflexivity.
Defined.

(** X14: The errors of a failed exchange in [Do]: when the context is done the
    result is the context's error and nothing else; while the context is
    live it is the transport's error wrapped, reading "failed to POST to
    rollbar: " followed by the transport's text and with the transport's
    cause as its cause.  The consolidated [post] gives the wrapped form in
    both situations. *)
Theorem failed_exchange_errors :
  forall (env : Env) (c : Consolidated.Client) (hc : PerLevel.httpClient)
         (pctx : Context) (level : Level) (err : option error)
         (options : list ErrorOption) (w w1 wh : World) (p : api.Payload)
         (data : bytes) (req hreq : Request) (res : api.Response)
         (e : error) (done : option error),
    Consolidated.token c <> "" ->
    run (Consolidated.payload env c level err options) w = (p, w1) ->
    json_Marshal env p = ok data ->
    http_NewRequest env http_MethodPost (Consolidated.endpoint c) data
      = ok req ->
    ctxhttp_Do env (trace (before_send env c pctx p w1))
      (context_WithCancel pctx) (Consolidated.client c)
      (Header_Set "Content-Type" "application/json" req) = Failed e done ->
    ctxhttp_Do env (trace wh) pctx (PerLevel.client hc) hreq = Failed e done ->
    fst (run (PerLevel.Do env hc pctx hreq res) wh)
      = (res, Some match done with
                   | Some cerr => cerr
                   | None => errors_Wrap e "failed to POST to rollbar"
                   end)
    /\ fst (run (Consolidated.post env c pctx level err options) w)
       = Some (errors_Wrap e "failed to POST to rollbar")
    /\ Error (errors_Wrap e "failed to POST to rollbar")
       = "failed to POST to rollbar: " ++ Error e
    /\ Cause (errors_Wrap e "failed to POST to rollbar") = Cause e.
Proof.
  intros env c hc pctx level err options w w1 wh p data req hreq res e done
    Htok Hp Hm Hr Hex Hhex.
  split; [| split; [| split]].
  - rewrite Do_run, Hhex. destruct done; reflexivity.
  - rewrite (post_run env c pctx level err options w w1 p data req Htok Hp Hm Hr).
    cbn zeta. rewrite Hex. reflexivity.
  - reflexivity.
  - reflexivity.
Qed.

Lemma failed_exchange_errors_witness :
  fst (run (PerLevel.Do env_refused (demo_httpClient "tok" false)
              (context_value 1) demo_request empty_Response) w0)
    = (empty_Response,
       Some (errors_Wrap (foreign_error "connection refused")
               "failed to POST to rollbar"))
  /\ fst (run (Consolidated.post env_refused (demo_client "tok" false)
                 (context_value 1) ErrorLevel None []) w0)
     = Some (errors_Wrap (foreign_error "connection refused")
               "failed to POST to rollbar").
Proof.
  destruct (failed_exchange_errors env_refused
    (demo_client "tok" false) (demo_httpClient "tok" false)
    (context_value 1) ErrorLevel None [] w0
    (snd (run (Consolidated.payload env_refused (demo_client "tok" false)
                 ErrorLevel None []) w0))
    w0
    (fst (run (Consolidated.payload env_refused (demo_client "tok" false)
                 ErrorLevel None []) w0))
    ("{" ++ quoted "access_token" ++ ":" ++ quoted "tok" ++ "}")
    (mkRequest "POST" "https://api.rollbar.com/api/1/item/" []
       ("{" ++ quoted "access_token" ++ ":" ++ quoted "tok" ++ "}"))
    demo_request empty_Response (foreign_error "connection refused") None)
    as [H1 [H2 _]];
    try reflexivity; try discriminate.
  split; [exact H1 | exact H2].
Defined.

(** * The debug trace of a response *)

(** X15: Without the debug flag [parseResponse] leaves the world as it is.
    With it, what it records starts with the marker line that names the
    endpoint and ends with the closing marker; in between the per-level
    client logs one line, and the consolidated client one line, or two
    when the body does not unmarshal (the error and then the raw body).
    Every line goes to the client's logger with the caller's context. *)
Theorem parseResponse_debug_trace :
  forall (env : Env) (c : Consolidated.Client) (hc : PerLevel.httpClient)
         (ctx : Context) (rdr : Reader) (data : Consolidated.any)
         (resp : api.Response) (w : World),
    (Consolidated.debug c = false ->
     snd (run (Consolidated.parseResponse env c ctx rdr data) w) = w)
    /\ (PerLevel.debug hc = false ->
        snd (run (PerLevel.parseResponse env hc ctx rdr resp) w) = w)
    /\ (Consolidated.debug c = true ->
        exists middle : list Event,
          added_since w
            (snd (run (Consolidated.parseResponse env c ctx rdr data) w))
            = (ev_Debug (Consolidated.logger c) ctx "-----> %s (response)"
                 [arg_string (Consolidated.endpoint c)]
               :: middle
               ++ [ev_Debug (Consolidated.logger c) ctx "<----- %s (response)"
                     [arg_string (Consolidated.endpoint c)]])%list
          /\ Forall (logs_to (Consolidated.logger c) ctx) middle
          /\ length middle
             = match json_Unmarshal_Response env (unread rdr) with
               | ok _ => 1%nat
               | failed _ => 2%nat
               end
          /\ (forall e, json_Unmarshal_Response env (unread rdr) = failed e ->
              middle
              = [ev_Debug (Consolidated.logger c) ctx
                   "failed to unmarshal payload: %s" [arg_error e];
                 ev_Debug (Consolidated.logger c) ctx "%s"
                   [arg_string (unread rdr)]]))
    /\ (PerLevel.debug hc = true ->
        exists line : Event,
          added_since w
            (snd (run (PerLevel.parseResponse env hc ctx rdr resp) w))
            = [ev_Debugf (PerLevel.logger hc) ctx
                 ("-----> %s (response)" ++ LF)
                 [arg_string (PerLevel.endpoint hc)];
               line;
               ev_Debugf (PerLevel.logger hc) ctx
                 ("<----- %s (response)" ++ LF)
                 [arg_string (PerLevel.endpoint hc)]]
          /\ logs_to (PerLevel.logger hc) ctx line).
Proof.
  intros env c hc ctx rdr data resp w.
  split; [| split; [| split]].
  - apply Consolidated_parseResponse_quiet.
  - intros Hd. unfold PerLevel.parseResponse. rewrite run_bind, Hd.
    reflexivity.
  - intros Hd. unfold Consolidated.parseResponse. rewrite run_bind, Hd.
    unfold io_Copy, run.
    destruct (json_Unmarshal_Response env (unread rdr)) as [m | e] eqn:Hu;
      cbn -[Consolidated.Decode];
      destruct (Consolidated.Decode env _ data) as [d oe];
      cbn.
    + exists [ev_Debug (Consolidated.logger c) ctx "%s"
                [arg_bytes (json_MarshalIndent_Response env m)]].
      split; [apply added_since_extends; cbn;
              rewrite <- ?app_assoc; reflexivity |].
      split; [repeat constructor |]. split; [reflexivity |].
      intros e' He'. discriminate He'.
    + exists [ev_Debug (Consolidated.logger c) ctx
                "failed to unmarshal payload: %s" [arg_error e];
              ev_Debug (Consolidated.logger c) ctx "%s"
                [arg_string (unread rdr)]].
      split; [apply added_since_extends; cbn;
              rewrite <- ?app_assoc; reflexivity |].
      split; [repeat constructor |]. split; [reflexivity |].
      intros e' He'. injection He' as <-. reflexivity.
  - intros Hd. unfold PerLevel.parseResponse. rewrite run_bind, Hd.
    unfold io_Copy, run.
    destruct (json_Unmarshal_map env (unread rdr)) as [m | e] eqn:Hu; cbn.
    + exists (ev_Debugf (PerLevel.logger hc) ctx ("%s" ++ LF)
                [arg_bytes (json_MarshalIndent_map env m)]).
      split; [apply added_since_extends; cbn;
              rewrite <- ?app_assoc; reflexivity |].
      cbn. auto.
    + exists (ev_Debugf (PerLevel.logger hc) ctx
                "failed to unmarshal payload: %v" [arg_error e]).
      split; [apply added_since_extends; cbn;
              rewrite <- ?app_assoc; reflexivity |].
      cbn. auto.
Qed.

Lemma parseResponse_debug_trace_witness :
  snd (run (Consolidated.parseResponse env_X (demo_client "tok" false)
              (context_value 1) (mkReader (response_body "X") None)
              (Consolidated.any_bytes "{}")) w0)
    = w0
  /\ snd (run (PerLevel.parseResponse env_X (demo_httpClient "tok" false)
                 (context_value 1) (mkReader (response_body "X") None)
                 empty_Response) w0)
     = w0.
Proof.
  destruct (parseResponse_debug_trace env_X (demo_client "tok" false)
              (demo_httpClient "tok" false) (context_value 1)
              (mkReader (response_body "X") None) (Consolidated.any_bytes "{}")
              empty_Response w0) as [H1 [H2 _]].
  split; [apply H1 | apply H2]; reflexivity.
Defined.

(** * More on the payload of the consolidated client *)

Lemma fold_apply_option_customs_value (options : list ErrorOption)
    (acc : option JSONMap * string) :
  fst (fold_left Consolidated.apply_option options acc)
    = match supplied_customs options with
      | Some m => Some m
      | None => fst acc
      end.
Proof.
  revert acc. induction options as [| o rest IH]; intros acc; cbn.
  - reflexivity.
  - rewrite IH. destruct (supplied_customs rest); [reflexivity |].
    destruct o; reflexivity.
Qed.

(** X16: The payload depends on the per-call options only through the last
    custom-fields option and the last identifier option: options of the
    two kinds do not interfere, their relative order does not matter, and
    options under other keys are ignored.  The payload's custom fields are
    those of the last custom-fields option, absent when there is none. *)
Theorem payload_reads_last_options :
  forall (env : Env) (c : Consolidated.Client) (level : Level)
         (err : option error) (options options' : list ErrorOption)
         (w : World),
    supplied_id options = supplied_id options' ->
    supplied_customs options = supplied_customs options' ->
    run (Consolidated.payload env c level err options) w
      = run (Consolidated.payload env c level err options') w
    /\ api.Custom (api.Data_
         (fst (run (Consolidated.payload env c level err options) w)))
       = supplied_customs options.
Proof.
  intros env c level err options options' w Hid Hcu.
  rewrite !payload_run, !fold_apply_option_customs_value, Hid, Hcu.
  cbn zeta. split; [reflexivity |].
  destruct (supplied_id options') as [[| a s] |];
    destruct (supplied_customs options'); reflexivity.
Qed.

Lemma payload_reads_last_options_witness :
  run (Consolidated.payload env_X (demo_client "tok" false) ErrorLevel None
         [keyCustom [("a", JNumber 1)]; keyUUID "id-1"; keyOther "x";
          keyCustom [("b", JNumber 2)]]) w0
    = run (Consolidated.payload env_X (demo_client "tok" false) ErrorLevel None
             [keyCustom [("b", JNumber 2)]; keyUUID "id-1"]) w0
  /\ api.Custom (api.Data_
       (fst (run (Consolidated.payload env_X (demo_client "tok" false)
                    ErrorLevel None
                    [keyCustom [("a", JNumber 1)]; keyUUID "id-1";
                     keyOther "x"; keyCustom [("b", JNumber 2)]]) w0)))
     = Some [("b", JNumber 2)].
Proof.
  apply (payload_reads_last_options env_X (demo_client "tok" false) ErrorLevel
           None
           [keyCustom [("a", JNumber 1)]; keyUUID "id-1"; keyOther "x";
            keyCustom [("b", JNumber 2)]]
           [keyCustom [("b", JNumber 2)]; keyUUID "id-1"] w0);
    reflexivity.
Defined.

(** X17: Building a payload records no call at all; it draws one UUID when the
    options leave no identifier to use and none otherwise; and the payload
    carries the client's token and the wire name of the level. *)
Theorem payload_is_pure_but_for_the_uuid :
  forall (env : Env) (c : Consolidated.Client) (level : Level)
         (err : option error) (options : list ErrorOption) (w : World),
    trace (snd (run (Consolidated.payload env c level err options) w))
      = trace w
    /\ (no_identifier options ->
        uuids_drawn (snd (run (Consolidated.payload env c level err options) w))
        = S (uuids_drawn w))
    /\ (~ no_identifier options ->
        snd (run (Consolidated.payload env c level err options) w) = w)
    /\ api.AccessToken
         (fst (run (Consolidated.payload env c level err options) w))
       = Consolidated.token c
    /\ api.Level (api.Data_
         (fst (run (Consolidated.payload env c level err options) w)))
       = Level_string level.
Proof.
  intros env c level err options w. unfold no_identifier.
  rewrite payload_run. cbn zeta.
  destruct (supplied_id options) as [[| a s] |]; cbn;
    repeat split; try reflexivity; intros H;
    try (destruct H as [H | H]; discriminate H);
    exfalso; apply H; auto.
Qed.

Lemma payload_is_pure_but_for_the_uuid_witness :
  uuids_drawn
    (snd (run (Consolidated.payload env_X (demo_client "tok" false) ErrorLevel
                 None [keyCustom []]) w0))
    = 1%nat
  /\ snd (run (Consolidated.payload env_X (demo_client "tok" false) ErrorLevel
                 None [keyUUID "id-1"]) w0)
     = w0.
Proof.
  split.
  - apply (payload_is_pure_but_for_the_uuid env_X (demo_client "tok" false)
             ErrorLevel None [keyCustom []] w0).
    left. reflexivity.
  - apply (payload_is_pure_but_for_the_uuid env_X (demo_client "tok" false)
             ErrorLevel None [keyUUID "id-1"] w0).
    intros [H | H]; discriminate H.
Defined.

(** X18: The five levels go on the wire under five different names, so the
    level of a payload can be read back from it. *)
Theorem Level_string_injective :
  forall (l1 l2 : Level), Level_string l1 = Level_string l2 -> l1 = l2.
Proof.
  intros l1 l2 H. destruct l1; destruct l2; try reflexivity; discriminate H.
Qed.

Lemma Level_string_injective_witness :
  WarnLevel = WarnLevel.
Proof.
  apply (Level_string_injective WarnLevel WarnLevel). reflexivity.
Defined.

(** * What the consolidated client puts on the wire *)

Lemma Consolidated_parseResponse_extends (env : Env)
    (c : Consolidated.Client) (ctx : Context) (rdr : Reader)
    (data : Consolidated.any) (w : World) :
  exists l : list Event,
    trace (snd (run (Consolidated.parseResponse env c ctx rdr data) w))
      = (trace w ++ l)%list
    /\ count is_send l = 0%nat.
Proof.
  unfold Consolidated.parseResponse. rewrite run_bind.
  destruct (Consolidated.debug c).
  - unfold io_Copy, run.
    destruct (json_Unmarshal_Response env (unread rdr)) as [m | e];
      cbn -[Consolidated.Decode];
      destruct (Consolidated.Decode env _ data) as [d oe]; cbn;
      rewrite <- ?app_assoc; eexists; split; reflexivity.
  - rewrite run_ret. cbn [fst snd].
    destruct (Consolidated.Decode env rdr data) as [d oe].
    exists []. rewrite app_nil_r. split; reflexivity.
Qed.

(** X19: When the consolidated [post] gets as far as the transport, the one
    request it sends is the constructor's request for the serialized
    payload, with the content type set to application/json exactly once
    and the constructor's other headers (so also its user agent) left as
    they were; it is sent under a context derived from the caller's by
    [WithCancel], never under the caller's context itself. *)
Theorem post_sends_the_built_request :
  forall (env : Env) (c : Consolidated.Client) (pctx : Context)
         (level : Level) (err : option error) (options : list ErrorOption)
         (w w1 : World) (p : api.Payload) (data : bytes) (req : Request),
    Consolidated.token c <> "" ->
    run (Consolidated.payload env c level err options) w = (p, w1) ->
    json_Marshal env p = ok data ->
    http_NewRequest env http_MethodPost (Consolidated.endpoint c) data
      = ok req ->
    filter is_send
      (added_since w
         (snd (run (Consolidated.post env c pctx level err options) w)))
      = [ev_send (context_WithCancel pctx)
           (Header_Set "Content-Type" "application/json" req)]
    /\ header_Get "Content-Type"
         (Header_Set "Content-Type" "application/json" req)
       = Some "application/json"
    /\ header_count "Content-Type"
         (Header_Set "Content-Type" "application/json" req)
       = 1%nat
    /\ header_Get "User-Agent"
         (Header_Set "Content-Type" "application/json" req)
       = header_Get "User-Agent" req
    /\ req_body (Header_Set "Content-Type" "application/json" req)
       = req_body req.
Proof.
  intros env c pctx level err options w w1 p data req Htok Hp Hm Hr.
  split; [| split; [| split; [| split]]].
  - pose proof (payload_world env c level err options w) as [Htr _].
    rewrite Hp in Htr. cbn [snd] in Htr.
    assert (Hws : exists l0,
              trace (before_send env c pctx p w1) = (trace w ++ l0)%list
              /\ filter is_send l0 = []).
    { unfold before_send. destruct (Consolidated.debug c).
      - eexists. cbn. rewrite Htr. split; reflexivity.
      - exists []. rewrite app_nil_r. split; [exact Htr | reflexivity]. }
    destruct Hws as [l0 [Hl0 Hf0]].
    rewrite (post_run env c pctx level err options w w1 p data req Htok Hp Hm Hr).
    cbn zeta.
    destruct (ctxhttp_Do env _ _ _ _) as [resp | e ce].
    + cbn [fst snd].
      assert (Hr' : exists l1,
                trace (snd (run (if negb (StatusCode resp =? 200)
                                 then ret (Some (errors_New
                                        ("received response: " ++ Status resp)))
                                 else Consolidated.parseResponse env c pctx
                                        (RespBody resp)
                                        (Consolidated.any_bytes data))
                              (logged (ev_send (context_WithCancel pctx)
                                         (Header_Set "Content-Type"
                                            "application/json" req))
                                 (before_send env c pctx p w1))))
                = (trace (logged (ev_send (context_WithCancel pctx)
                                    (Header_Set "Content-Type"
                                       "application/json" req))
                            (before_send env c pctx p w1)) ++ l1)%list
                /\ filter is_send l1 = []).
      { destruct (negb (StatusCode resp =? 200)).
        - exists []. rewrite app_nil_r. split; reflexivity.
        - destruct (Consolidated_parseResponse_extends env c pctx
                      (RespBody resp) (Consolidated.any_bytes data)
                      (logged (ev_send (context_WithCancel pctx)
                                 (Header_Set "Content-Type"
                                    "application/json" req))
                         (before_send env c pctx p w1))) as [l1 [H1 H2]].
          exists l1. split; [exact H1 |].
          unfold count in H2. apply length_zero_iff_nil. exact H2. }
      destruct Hr' as [l1 [Hl1 Hf1]].
      erewrite added_since_extends.
      2:{ cbn [trace logged]. rewrite Hl1. cbn [trace logged].
          rewrite Hl0, <- !app_assoc. reflexivity. }
      rewrite !filter_app, Hf0, Hf1. reflexivity.
    + cbn [fst snd].
      erewrite added_since_extends.
      2:{ cbn [trace logged]. rewrite Hl0, <- !app_assoc. reflexivity. }
      rewrite !filter_app, Hf0. reflexivity.
  - apply header_Get_Set_same.
  - apply header_count_Set_same.
  - apply header_Get_Set_other. discriminate.
  - reflexivity.
Qed.

Lemma post_sends_the_built_request_witness :
  filter is_send
    (added_since w0
       (snd (run (Consolidated.post env_X (demo_client "tok" true)
                    (context_value 1) ErrorLevel None []) w0)))
    = [ev_send (context_WithCancel (context_value 1))
         (Header_Set "Content-Type" "application/json"
            (mkRequest "POST" "https://api.rollbar.com/api/1/item/" []
               ("{" ++ quoted "access_token" ++ ":" ++ quoted "tok" ++ "}")))].
Proof.
  apply (post_sends_the_built_request env_X (demo_client "tok" true)
           (context_value 1) ErrorLevel None [] w0
           (snd (run (Consolidated.payload env_X (demo_client "tok" true)
                        ErrorLevel None []) w0))
           (fst (run (Consolidated.payload env_X (demo_client "tok" true)
                        ErrorLevel None []) w0))
           ("{" ++ quoted "access_token" ++ ":" ++ quoted "tok" ++ "}")
           (mkRequest "POST" "https://api.rollbar.com/api/1/item/" []
              ("{" ++ quoted "access_token" ++ ":" ++ quoted "tok" ++ "}")));
    try reflexivity; discriminate.
Defined.

(** X20: The code version a client was configured with plays no part in what
    the consolidated client reports: two clients that differ only in it
    behave the same in [post], down to the payload that is serialized. *)
Theorem codeVersion_is_not_reported :
  forall (env : Env) (proc : Process) (tok version : string)
         (options : list Consolidated.Option)
         (pctx : Context) (level : Level) (err : option error)
         (eoptions : list ErrorOption) (w : World),
    run (Consolidated.post env
           (Consolidated.New proc tok
              (options ++ [Consolidated.keyCodeVersion version]))
           pctx level err eoptions) w
      = run (Consolidated.post env
               (Consolidated.New proc tok
                  (options ++ [Consolidated.keyCodeVersion ""]))
               pctx level err eoptions) w
    /\ Consolidated.codeVersion
         (Consolidated.New proc tok
            (options ++ [Consolidated.keyCodeVersion version]))
       = version
    /\ api.CodeVersion (api.Data_
         (fst (run (Consolidated.payload env
                      (Consolidated.New proc tok
                         (options ++ [Consolidated.keyCodeVersion version]))
                      level err eoptions) w)))
       = "".
Proof.
  intros env proc tok version options pctx level err eoptions w.
  split; [| split].
  - unfold Consolidated.New. rewrite !fold_left_app. cbn [fold_left].
    generalize (fold_left Consolidated.apply_Option options
                  (Consolidated.mkClient tok (http_DefaultClient proc)
                     (api_DefaultEndpoint proc)
                     (fst (strconv_ParseBool (os_Getenv proc "ROLLBAR_DEBUG")))
                     nilLogger "development" "" "" "" "")).
    intros [t hc u d l e pf cv sh sr]. reflexivity.
  - unfold Consolidated.New. rewrite fold_left_app. reflexivity.
  - rewrite payload_run. cbn zeta.
    destruct (supplied_id eoptions) as [[| a s] |]; reflexivity.
Qed.

(** * Debug tracing and the decoded result *)

(** X21: For a response body that is read to its end without a read
    error, [parseResponse] returns the same thing with the debug flag set
    and with it unset, in both clients: what the decoder makes of the
    body; a copy that does not unmarshal for the trace changes nothing.
    With the flag set the decoder is always given the buffered copy, which
    ends at end of file. *)
Theorem parseResponse_same_on_complete_bodies :
  forall (env : Env) (c : Consolidated.Client) (hc : PerLevel.httpClient)
         (ctx : Context) (rdr : Reader) (data : Consolidated.any)
         (resp : api.Response) (w wd : World),
    (fst (run (Consolidated.parseResponse env
                 (Consolidated_with_debug true c) ctx rdr data) wd)
       = match json_Decode_interface env (bytes_Buffer (unread rdr)) with
         | ok _ => None
         | failed e => Some e
         end
     /\ fst (run (PerLevel.parseResponse env
                    (PerLevel_with_debug true hc) ctx rdr resp) wd)
        = json_Decode_Response env resp (bytes_Buffer (unread rdr)))
    /\ (read_error rdr = None ->
        fst (run (Consolidated.parseResponse env
                    (Consolidated_with_debug true c) ctx rdr data) wd)
          = fst (run (Consolidated.parseResponse env
                        (Consolidated_with_debug false c) ctx rdr data) w)
        /\ fst (run (Consolidated.parseResponse env
                       (Consolidated_with_debug false c) ctx rdr data) w)
           = match json_Decode_interface env rdr with
             | ok _ => None
             | failed e => Some e
             end
        /\ fst (run (PerLevel.parseResponse env
                       (PerLevel_with_debug true hc) ctx rdr resp) wd)
           = fst (run (PerLevel.parseResponse env
                         (PerLevel_with_debug false hc) ctx rdr resp) w)
        /\ fst (run (PerLevel.parseResponse env
                       (PerLevel_with_debug false hc) ctx rdr resp) w)
           = json_Decode_Response env resp rdr).
Proof.
  intros env c hc ctx rdr data resp w wd.
  rewrite !Consolidated_parseResponse_value, !PerLevel_parseResponse_value.
  cbn [Consolidated_with_debug PerLevel_with_debug Consolidated.debug
       PerLevel.debug seen_by_decoder io_Copy fst].
  unfold Consolidated.Decode.
  split.
  - split; [| reflexivity].
    destruct (json_Decode_interface env (bytes_Buffer (unread rdr)));
      reflexivity.
  - intros Hr.
    assert (E : bytes_Buffer (unread rdr) = rdr).
    { destruct rdr as [b e]. cbn in *. subst e. reflexivity. }
    rewrite E. repeat split.
    destruct (json_Decode_interface env rdr); reflexivity.
Qed.

Lemma parseResponse_same_on_complete_bodies_witness :
  fst (run (PerLevel.parseResponse env_X (demo_httpClient "tok" true)
              (context_value 1) (RespBody (ok_200 "X")) empty_Response) w0)
    = fst (run (PerLevel.parseResponse env_X (demo_httpClient "tok" false)
                  (context_value 1) (RespBody (ok_200 "X")) empty_Response) w0)
  /\ fst (run (Consolidated.parseResponse env_X (demo_client "tok" true)
                 (context_value 1) (RespBody (ok_200 "X"))
                 (Consolidated.any_bytes "{}")) w0)
     = fst (run (Consolidated.parseResponse env_X (demo_client "tok" false)
                   (context_value 1) (RespBody (ok_200 "X"))
                   (Consolidated.any_bytes "{}")) w0).
Proof.
  destruct (parseResponse_same_on_complete_bodies env_X
              (demo_client "tok" false) (demo_httpClient "tok" false)
              (context_value 1) (RespBody (ok_200 "X"))
              (Consolidated.any_bytes "{}") empty_Response w0 w0)
    as [_ H].
  destruct (H eq_refl) as [H1 [_ [H3 _]]].
  split; [exact H3 | exact H1].
Defined.
